(** * IBC 02-client keeper: client creation, header updates and misbehaviour

    A shallow embedding of [CreateClient], [UpdateClient] and
    [CheckMisbehaviourAndUpdateState] of the IBC 02-client keeper (package
    [keeper]), with the properties the specification states about them.

    The keeper threads an [sdk.Context] through every call: a key-value
    store, an event manager and a logger.  A keeper method is embedded as a
    function from the context to the context it leaves behind and a result
    that is a value, a returned [error], or a panic. *)

From stdpp Require Import gmap strings list fin_maps pretty.
From Stdlib Require Import ZArith Lia Sorted.

Local Open Scope Z_scope.

(** ** Data model *)

Module Exported.

(** Modelled from the spec: the declaration of [exported.ClientType] is not
    part of the keeper file.  It is the "enumerated tag identifying which
    verification strategy a client uses"; [Tendermint] is the one tag the
    keeper dispatches on, every other tag has no strategy. *)
Inductive ClientType : Type :=
| Tendermint
| Unsupported (tag : N).

#[global] Instance ClientType_eq_dec : EqDecision ClientType.
Proof. solve_decision. Defined.

(** Modelled from the spec: [exported.ClientState], the "per-client record
    holding latest verified height, a frozen flag/height" and parameters
    owned by the verifier.  The keeper reads it through [GetLatestHeight]
    and [IsFrozen]; [SetClientState] receives no identifier, so the record
    carries its own ([GetID]). *)
Record ClientState : Type := mkClientState {
  ID : string;
  LatestHeight : Z;
  Frozen : bool;
  FrozenHeight : Z;
}.

Definition GetID (cs : ClientState) : string := ID cs.
Definition GetLatestHeight (cs : ClientState) : Z := LatestHeight cs.
Definition IsFrozen (cs : ClientState) : bool := Frozen cs.

#[global] Instance ClientState_eq_dec : EqDecision ClientState.
Proof. solve_decision. Defined.

(** Modelled from the spec: [exported.ConsensusState], the "snapshot of the
    remote chain's state root and validator/authority commitment". *)
Record ConsensusState : Type := mkConsensusState {
  Root : string;
  ValidatorSetHash : string;
}.

#[global] Instance ConsensusState_eq_dec : EqDecision ConsensusState.
Proof. solve_decision. Defined.

(** Modelled from the spec: [exported.Header], a "claim of remote-chain
    state at a target height, tagged with the consensus type it claims to
    belong to".  [GetHeight] is a [uint64]. *)
Record Header : Type := mkHeader {
  Header_ClientType : ClientType;
  Header_GetHeight : Z;
  Header_AppHash : string;
  Header_ValidatorSetHash : string;
}.

(** Modelled from the spec: [exported.Misbehaviour], evidence that
    "self-identifies its target ClientIdentifier, target height, and
    consensus type".  [GetHeight] is signed: the keeper converts it with
    [uint64(...)]. *)
Record EvidenceData : Type := mkEvidenceData {
  ev_ClientID : string;
  ev_Height : Z;
  ev_ClientType : ClientType;
  ev_Header1 : Header;
  ev_Header2 : Header;
}.

(** The keeper switches on the dynamic type of the evidence:
    [tendermint.Evidence] or anything else, whose Go type name the error
    message prints with [%T]. *)
Inductive Misbehaviour : Type :=
| TendermintEvidence (e : EvidenceData)
| OtherEvidence (goType : string) (e : EvidenceData).

Definition evidence_data (m : Misbehaviour) : EvidenceData :=
  match m with
  | TendermintEvidence e => e
  | OtherEvidence _ e => e
  end.

Definition Misbehaviour_GetClientID (m : Misbehaviour) : string :=
  ev_ClientID (evidence_data m).
Definition Misbehaviour_GetHeight (m : Misbehaviour) : Z :=
  ev_Height (evidence_data m).
Definition Misbehaviour_ClientType (m : Misbehaviour) : ClientType :=
  ev_ClientType (evidence_data m).

End Exported.
Export Exported.

(** Go's conversion [uint64(x)] of a signed 64-bit integer. *)
Definition uint64 (x : Z) : Z := x mod 2 ^ 64.

(** ** Errors *)

Module Errors.

(** The registered errors the keeper returns, the verifier's own errors,
    and [sdkerrors.Wrap]/[Wrapf], which keep the wrapped error and add a
    description. *)
Inductive error : Type :=
| ErrClientExists
| ErrClientTypeNotFound
| ErrInvalidConsensus
| ErrClientNotFound
| ErrClientFrozen
| ErrInvalidClientType
| ErrConsensusStateNotFound
| ErrUnknownRequest
| ErrVerifier (reason : string)
| Wrap (err : error) (description : string).

#[global] Instance error_eq_dec : EqDecision error.
Proof. solve_decision. Defined.

(** The registered error at the bottom of a chain of wraps
    ([errors.Cause]). *)
Fixpoint Cause (e : error) : error :=
  match e with
  | Wrap e' _ => Cause e'
  | _ => e
  end.

End Errors.
Export Errors.

(** ** The context: store, events, log *)

Inductive EventType : Type :=
| EventTypeCreateClient
| EventTypeUpdateClient
| EventTypeSubmitMisbehaviour
| EventTypeMessage.

Inductive AttributeKey : Type :=
| AttributeKeyClientID
| AttributeKeyClientType
| AttributeKeyModule.

Inductive AttributeValue : Type :=
| AttributeString (s : string)
| AttributeValueCategory
| ClientTypeString (t : ClientType).

Record Event : Type := NewEvent {
  event_type : EventType;
  event_attributes : list (AttributeKey * AttributeValue);
}.

Definition NewAttribute (k : AttributeKey) (v : AttributeValue) :
  AttributeKey * AttributeValue := (k, v).

(** Modelled from the spec: the store behind the keeper's accessors, "abstract
    key-value semantics, keys are structured (identifier[, height])": client
    state and consensus type by identifier, consensus state by identifier and
    height. *)
Record KVStore : Type := mkStore {
  clientStates : gmap string ClientState;
  clientTypes : gmap string ClientType;
  consensusStates : gmap (string * Z) ConsensusState;
}.

Record Context : Type := mkContext {
  ChainID : string;
  store : KVStore;
  events : list Event;
  logger : list string;
}.

Definition emptyStore : KVStore := mkStore ∅ ∅ ∅.
Definition newContext (chainID : string) : Context :=
  mkContext chainID emptyStore [] [].

Definition with_store (f : KVStore → KVStore) (ctx : Context) : Context :=
  mkContext (ChainID ctx) (f (store ctx)) (events ctx) (logger ctx).

(** ** Keeper computations *)

Inductive result (A : Type) : Type :=
| Ok (a : A)
| Err (e : error)
| Panic (msg : string).
Arguments Ok {A} a.
Arguments Err {A} e.
Arguments Panic {A} msg.

Definition K (A : Type) : Type := Context → Context * result A.

#[global] Instance K_ret : MRet K := λ A a ctx, (ctx, Ok a).
#[global] Instance K_bind : MBind K := λ A B f m ctx,
  match m ctx with
  | (ctx', Ok a) => f a ctx'
  | (ctx', Err e) => (ctx', Err e)
  | (ctx', Panic msg) => (ctx', Panic msg)
  end.

Definition throw {A} (e : error) : K A := λ ctx, (ctx, Err e).
Definition panic {A} (msg : string) : K A := λ ctx, (ctx, Panic msg).

(** [if err != nil { return sdkerrors.Wrapf(err, description) }] *)
Definition wrapErr {A} (description : string) (m : K A) : K A := λ ctx,
  match m ctx with
  | (ctx', Err e) => (ctx', Err (Wrap e description))
  | r => r
  end.

(** A pure call that returns a value or an error. *)
Definition call {A} (r : A + error) : K A :=
  match r with
  | inl a => mret a
  | inr e => throw e
  end.

Definition getChainID : K string := λ ctx, (ctx, Ok (ChainID ctx)).

(** Modelled from the spec: the keeper's store accessors, declared elsewhere
    in the package, "get/set
    ClientState by identifier, get/set ConsensusTypeTag by identifier,
    get/set ConsensusState by (identifier, height)".  A getter returns the
    value and the [found] flag as an [option]. *)
Definition GetClientState (clientID : string) : K (option ClientState) :=
  λ ctx, (ctx, Ok (clientStates (store ctx) !! clientID)).

Definition GetClientType (clientID : string) : K (option ClientType) :=
  λ ctx, (ctx, Ok (clientTypes (store ctx) !! clientID)).

Definition GetClientConsensusState (clientID : string) (height : Z) :
  K (option ConsensusState) :=
  λ ctx, (ctx, Ok (consensusStates (store ctx) !! (clientID, height))).

Definition SetClientState (clientState : ClientState) : K unit :=
  λ ctx,
    (with_store (λ s, mkStore (<[GetID clientState := clientState]> (clientStates s))
                             (clientTypes s) (consensusStates s)) ctx,
     Ok ()).

Definition SetClientType (clientID : string) (clientType : ClientType) : K unit :=
  λ ctx,
    (with_store (λ s, mkStore (clientStates s)
                             (<[clientID := clientType]> (clientTypes s))
                             (consensusStates s)) ctx,
     Ok ()).

Definition SetClientConsensusState (clientID : string) (height : Z)
    (consensusState : ConsensusState) : K unit :=
  λ ctx,
    (with_store (λ s, mkStore (clientStates s) (clientTypes s)
                             (<[(clientID, height) := consensusState]> (consensusStates s)))
       ctx,
     Ok ()).

(** [k.Logger(ctx).Info(msg)] and [ctx.EventManager().EmitEvents(evs)]. *)
Definition LoggerInfo (msg : string) : K unit :=
  λ ctx, (mkContext (ChainID ctx) (store ctx) (events ctx) (logger ctx ++ [msg]), Ok ()).

Definition EmitEvents (evs : list Event) : K unit :=
  λ ctx, (mkContext (ChainID ctx) (store ctx) (events ctx ++ evs) (logger ctx), Ok ()).

Definition EmitEvent (ev : Event) : K unit := EmitEvents [ev].

(** [%d] of a [uint64]. *)
Definition fmt_d (n : Z) : string := pretty n.

(** ** The keeper *)

Section Keeper.

(** The parts of the repository the keeper calls and that are not in the
    keeper file: the keeper's own [initialize], which receives the context,
    and the two entry points of the Tendermint verifier, which do not. *)
Variable initialize :
  string → ClientType → ConsensusState → K ClientState.
Variable tendermint_CheckValidityAndUpdateState :
  ClientState → Header → string → (ClientState * ConsensusState) + error.
Variable tendermint_CheckMisbehaviourAndUpdateState :
  ClientState → ConsensusState → Misbehaviour → Z → ClientState + error.

Definition CreateClient (clientID : string) (clientType : ClientType)
    (consensusState : ConsensusState) : K ClientState :=
  found ← GetClientState clientID;
  match found with
  | Some _ =>
      throw (Wrap ErrClientExists ("cannot create client with ID " +:+ clientID))
  | None =>
  found ← GetClientType clientID;
  match found with
  | Some _ =>
      panic ("client type is already defined for client " +:+ clientID)
  | None =>
  clientState ← wrapErr ("cannot create client with ID " +:+ clientID)
                  (initialize clientID clientType consensusState);
  SetClientState clientState;;
  SetClientType clientID clientType;;
  LoggerInfo ("client " +:+ clientID +:+ " created at height "
              +:+ fmt_d (GetLatestHeight clientState));;
  EmitEvents [
    NewEvent EventTypeCreateClient
      [NewAttribute AttributeKeyClientID (AttributeString clientID)];
    NewEvent EventTypeMessage
      [NewAttribute AttributeKeyModule AttributeValueCategory]
  ];;
  mret clientState
  end end.

Definition UpdateClient (clientID : string) (header : Header) : K unit :=
  found ← GetClientType clientID;
  match found with
  | None =>
      throw (Wrap ErrClientTypeNotFound ("cannot update client with ID " +:+ clientID))
  | Some clientType =>
  if bool_decide (Header_ClientType header ≠ clientType) then
    throw (Wrap ErrInvalidConsensus ("cannot update client with ID " +:+ clientID))
  else
  found ← GetClientState clientID;
  match found with
  | None =>
      throw (Wrap ErrClientNotFound ("cannot update client with ID " +:+ clientID))
  | Some clientState =>
  if IsFrozen clientState then
    throw (Wrap ErrClientFrozen ("cannot update client with ID " +:+ clientID))
  else
  chainID ← getChainID;
  '(clientState, consensusState) ←
    match clientType with
    | Tendermint =>
        wrapErr ("cannot update client with ID " +:+ clientID)
          (call (tendermint_CheckValidityAndUpdateState clientState header chainID))
    | _ =>
        throw (Wrap ErrInvalidClientType ("cannot update client with ID " +:+ clientID))
    end;
  SetClientState clientState;;
  SetClientConsensusState clientID (Header_GetHeight header) consensusState;;
  LoggerInfo ("client " +:+ clientID +:+ " updated to height "
              +:+ fmt_d (Header_GetHeight header));;
  EmitEvents [
    NewEvent EventTypeUpdateClient
      [NewAttribute AttributeKeyClientID (AttributeString clientID)];
    NewEvent EventTypeMessage
      [NewAttribute AttributeKeyModule AttributeValueCategory]
  ]
  end end.

Definition CheckMisbehaviourAndUpdateState (misbehaviour : Misbehaviour) : K unit :=
  found ← GetClientState (Misbehaviour_GetClientID misbehaviour);
  match found with
  | None =>
      throw (Wrap ErrClientNotFound (Misbehaviour_GetClientID misbehaviour))
  | Some clientState =>
  found ← GetClientConsensusState (Misbehaviour_GetClientID misbehaviour)
            (uint64 (Misbehaviour_GetHeight misbehaviour));
  match found with
  | None =>
      throw (Wrap ErrConsensusStateNotFound (Misbehaviour_GetClientID misbehaviour))
  | Some consensusState =>
  clientState ←
    match misbehaviour with
    | TendermintEvidence _ =>
        call (tendermint_CheckMisbehaviourAndUpdateState
                clientState consensusState misbehaviour
                (uint64 (Misbehaviour_GetHeight misbehaviour)))
    | OtherEvidence goType _ =>
        throw (Wrap ErrUnknownRequest
                 ("unrecognized IBC client evidence type: " +:+ goType))
    end;
  SetClientState clientState;;
  LoggerInfo ("client " +:+ Misbehaviour_GetClientID misbehaviour
              +:+ " frozen due to misbehaviour");;
  EmitEvent
    (NewEvent EventTypeSubmitMisbehaviour
       [NewAttribute AttributeKeyClientID
          (AttributeString (Misbehaviour_GetClientID misbehaviour));
        NewAttribute AttributeKeyClientType
          (ClientTypeString (Misbehaviour_ClientType misbehaviour))])
  end end.

End Keeper.

(** ** A verifier to run the keeper with *)

Module SpecVerifier.

(** Modelled from the spec: the keeper's [initialize], declared elsewhere in
    the package, which
    "delegates to the verifier strategy matching the tag to materialize an
    initial ClientState", and fails for a tag without a strategy.  The
    client starts at the given height, not frozen. *)
Definition initialize (height : Z) (clientID : string) (clientType : ClientType)
    (consensusState : ConsensusState) : K ClientState :=
  match clientType with
  | Tendermint => mret (mkClientState clientID height false 0)
  | _ => throw ErrInvalidClientType
  end.

(** Modelled from the spec: the verifier's validate-and-update function
    (07-tendermint), "Active(height) --Update(valid header)-->
    Active(height') (height' ≥ height)".  It "either rejects the header or
    returns a new ClientState and a new ConsensusState for the header's
    target height"; whether a header at a height that already has a
    snapshot is accepted is "a verifier-specific decision (accept as no-op /
    reject as stale)", and this verifier accepts at the latest height
    itself. *)
Definition CheckValidityAndUpdateState (clientState : ClientState)
    (header : Header) (chainID : string) :
    (ClientState * ConsensusState) + error :=
  if bool_decide (Header_ClientType header ≠ Tendermint) then
    inr (ErrVerifier "header is not from Tendermint")
  else if Header_GetHeight header <? GetLatestHeight clientState then
    inr (ErrVerifier "header height below latest client state height")
  else
    inl (mkClientState (ID clientState) (Header_GetHeight header)
           (Frozen clientState) (FrozenHeight clientState),
         mkConsensusState (Header_AppHash header) (Header_ValidatorSetHash header)).

(** Modelled from the spec: a header of the evidence is "independently
    valid" against the stored snapshot when it is a Tendermint header at the
    evidence height with the snapshot's validator commitment. *)
Definition header_valid_against (consensusState : ConsensusState) (height : Z)
    (h : Header) : bool :=
  bool_decide (Header_ClientType h = Tendermint)
  && (Header_GetHeight h =? height)
  && bool_decide (Header_ValidatorSetHash h = ValidatorSetHash consensusState).

(** Modelled from the spec: the verifier's check-misbehaviour function
    (07-tendermint).  The evidence proves misbehaviour when its two headers
    are each valid against the stored snapshot and their roots differ
    ("mutually conflicting"); then it "returns a new ClientState with the
    frozen flag set (frozen height recorded)". *)
Definition CheckMisbehaviourAndUpdateState (clientState : ClientState)
    (consensusState : ConsensusState) (misbehaviour : Misbehaviour) (height : Z) :
    ClientState + error :=
  match misbehaviour with
  | TendermintEvidence e =>
      if header_valid_against consensusState height (ev_Header1 e)
         && header_valid_against consensusState height (ev_Header2 e)
         && bool_decide (Header_AppHash (ev_Header1 e) ≠ Header_AppHash (ev_Header2 e))
      then inl (mkClientState (ID clientState) (LatestHeight clientState) true height)
      else inr (ErrVerifier "evidence does not prove misbehaviour")
  | OtherEvidence _ _ => inr (ErrVerifier "evidence is not from Tendermint")
  end.

End SpecVerifier.

(** ** What the specification says of the parts the keeper calls *)

Section Contracts.

Variable initialize :
  string → ClientType → ConsensusState → K ClientState.
Variable tendermint_CheckValidityAndUpdateState :
  ClientState → Header → string → (ClientState * ConsensusState) + error.
Variable tendermint_CheckMisbehaviourAndUpdateState :
  ClientState → ConsensusState → Misbehaviour → Z → ClientState + error.

(** Modelled from the spec: [initialize] "either fully commits its state
    changes or fully aborts with no partial writes". *)
Definition initialize_aborts_cleanly : Prop :=
  ∀ clientID clientType consensusState ctx ctx' e,
    initialize clientID clientType consensusState ctx = (ctx', Err e) →
    store ctx' = store ctx.

(** Modelled from the spec: "one ClientState per ClientIdentifier"; the
    state [initialize] makes is the one of the identifier it is given. *)
Definition initialize_keeps_identifier : Prop :=
  ∀ clientID clientType consensusState ctx ctx' clientState,
    initialize clientID clientType consensusState ctx = (ctx', Ok clientState) →
    GetID clientState = clientID.

(** Modelled from the spec: Create "persists ClientState and
    ConsensusTypeTag" itself; [initialize] leaves both maps alone. *)
Definition initialize_leaves_clients : Prop :=
  ∀ clientID clientType consensusState ctx ctx' clientState,
    initialize clientID clientType consensusState ctx = (ctx', Ok clientState) →
    clientStates (store ctx') = clientStates (store ctx)
    ∧ clientTypes (store ctx') = clientTypes (store ctx).

(** Modelled from the spec: "ConsensusState entries accumulate
    monotonically"; [initialize] replaces and removes none. *)
Definition initialize_keeps_snapshots : Prop :=
  ∀ clientID clientType consensusState ctx ctx' r key snapshot,
    initialize clientID clientType consensusState ctx = (ctx', r) →
    consensusStates (store ctx) !! key = Some snapshot →
    consensusStates (store ctx') !! key = Some snapshot.

(** Modelled from the spec: "Active(height) --Update(valid header)-->
    Active(height') (height' ≥ height)". *)
Definition update_stays_active : Prop :=
  ∀ clientState header chainID clientState' consensusState,
    tendermint_CheckValidityAndUpdateState clientState header chainID
      = inl (clientState', consensusState) →
    IsFrozen clientState = false →
    GetLatestHeight clientState ≤ GetLatestHeight clientState'
    ∧ IsFrozen clientState' = false.

(** Modelled from the spec: the ClientIdentifier is "immutable once
    created"; the verifier returns the state of the client it was given. *)
Definition update_keeps_identifier : Prop :=
  ∀ clientState header chainID clientState' consensusState,
    tendermint_CheckValidityAndUpdateState clientState header chainID
      = inl (clientState', consensusState) →
    GetID clientState' = GetID clientState.

(** Modelled from the spec: likewise for the check of misbehaviour, whose
    result is "persisted, replacing the prior ClientState". *)
Definition misbehaviour_keeps_identifier : Prop :=
  ∀ clientState consensusState misbehaviour height clientState',
    tendermint_CheckMisbehaviourAndUpdateState
      clientState consensusState misbehaviour height = inl clientState' →
    GetID clientState' = GetID clientState.

(** Modelled from the spec: "On confirmed misbehaviour, the strategy returns
    a new ClientState with the frozen flag set (frozen height recorded)";
    "the latest-height field is unchanged by freezing". *)
Definition misbehaviour_freezes : Prop :=
  ∀ clientState consensusState misbehaviour height clientState',
    tendermint_CheckMisbehaviourAndUpdateState
      clientState consensusState misbehaviour height = inl clientState' →
    IsFrozen clientState' = true
    ∧ FrozenHeight clientState' = height
    ∧ GetLatestHeight clientState' = GetLatestHeight clientState.

End Contracts.

(** ** Contexts the keeper leaves behind, sequences of calls *)

Definition update_description (clientID : string) : string :=
  "cannot update client with ID " +:+ clientID.
Definition create_description (clientID : string) : string :=
  "cannot create client with ID " +:+ clientID.

(** The context after [UpdateClient] has stored the verifier's result. *)
Definition updated (ctx : Context) (clientID : string) (header : Header)
    (clientState : ClientState) (consensusState : ConsensusState) : Context :=
  mkContext (ChainID ctx)
    (mkStore (<[GetID clientState := clientState]> (clientStates (store ctx)))
             (clientTypes (store ctx))
             (<[(clientID, Header_GetHeight header) := consensusState]>
                (consensusStates (store ctx))))
    (events ctx ++
       [NewEvent EventTypeUpdateClient
          [NewAttribute AttributeKeyClientID (AttributeString clientID)];
        NewEvent EventTypeMessage
          [NewAttribute AttributeKeyModule AttributeValueCategory]])
    (logger ctx ++
       ["client " +:+ clientID +:+ " updated to height "
        +:+ fmt_d (Header_GetHeight header)]).

(** The context after [CheckMisbehaviourAndUpdateState] has stored the
    verifier's result. *)
Definition frozen_by (ctx : Context) (misbehaviour : Misbehaviour)
    (clientState : ClientState) : Context :=
  mkContext (ChainID ctx)
    (mkStore (<[GetID clientState := clientState]> (clientStates (store ctx)))
             (clientTypes (store ctx))
             (consensusStates (store ctx)))
    (events ctx ++
       [NewEvent EventTypeSubmitMisbehaviour
          [NewAttribute AttributeKeyClientID
             (AttributeString (Misbehaviour_GetClientID misbehaviour));
           NewAttribute AttributeKeyClientType
             (ClientTypeString (Misbehaviour_ClientType misbehaviour))]])
    (logger ctx ++
       ["client " +:+ Misbehaviour_GetClientID misbehaviour
        +:+ " frozen due to misbehaviour"]).

(** The context after [CreateClient] has stored the state [initialize] made in
    the context [ctx] that [initialize] left. *)
Definition created (ctx : Context) (clientID : string) (clientType : ClientType)
    (clientState : ClientState) : Context :=
  mkContext (ChainID ctx)
    (mkStore (<[GetID clientState := clientState]> (clientStates (store ctx)))
             (<[clientID := clientType]> (clientTypes (store ctx)))
             (consensusStates (store ctx)))
    (events ctx ++
       [NewEvent EventTypeCreateClient
          [NewAttribute AttributeKeyClientID (AttributeString clientID)];
        NewEvent EventTypeMessage
          [NewAttribute AttributeKeyModule AttributeValueCategory]])
    (logger ctx ++
       ["client " +:+ clientID +:+ " created at height "
        +:+ fmt_d (GetLatestHeight clientState)]).

(** The same context with another map of consensus types. *)
Definition with_clientTypes (types : gmap string ClientType) (ctx : Context) : Context :=
  with_store (λ s, mkStore (clientStates s) types (consensusStates s)) ctx.

(** The latest height of a client, as a query reads it from the store
    ([None] when there is no such client). *)
Definition latestHeightOf (ctx : Context) (clientID : string) : option Z :=
  GetLatestHeight <$> clientStates (store ctx) !! clientID.

Definition frozenOf (ctx : Context) (clientID : string) : option bool :=
  IsFrozen <$> clientStates (store ctx) !! clientID.

(** The store is corrupted at an identifier that has a consensus type and no
    client state, or a client state and no consensus type. *)
Definition corrupted_at (ctx : Context) (clientID : string) : Prop :=
  (is_Some (clientTypes (store ctx) !! clientID)
   ∧ clientStates (store ctx) !! clientID = None)
  ∨ (is_Some (clientStates (store ctx) !! clientID)
     ∧ clientTypes (store ctx) !! clientID = None).

(** Every client state is stored under its own identifier. *)
Definition keyed_by_identifier (ctx : Context) : Prop :=
  ∀ clientID clientState,
    clientStates (store ctx) !! clientID = Some clientState →
    GetID clientState = clientID.

(** Client states and consensus types are stored for the same identifiers,
    each state under its own. *)
Definition consistent (ctx : Context) : Prop :=
  keyed_by_identifier ctx
  ∧ ∀ clientID,
      is_Some (clientStates (store ctx) !! clientID)
      ↔ is_Some (clientTypes (store ctx) !! clientID).

Section Runs.

Variable initialize :
  string → ClientType → ConsensusState → K ClientState.
Variable tendermint_CheckValidityAndUpdateState :
  ClientState → Header → string → (ClientState * ConsensusState) + error.
Variable tendermint_CheckMisbehaviourAndUpdateState :
  ClientState → ConsensusState → Misbehaviour → Z → ClientState + error.

(** Headers submitted one after the other to one client, each accepted: the
    contexts after each update, or [None] once an update fails. *)
Fixpoint UpdateClientAll (clientID : string) (headers : list Header)
    (ctx : Context) : option (list Context) :=
  match headers with
  | [] => Some []
  | header :: rest =>
      match UpdateClient tendermint_CheckValidityAndUpdateState clientID header ctx with
      | (ctx', Ok _) => (ctx' ::.) <$> UpdateClientAll clientID rest ctx'
      | _ => None
      end
  end.

(** One call of the keeper that returns, with a value or with an error. *)
Inductive step (ctx ctx' : Context) : Prop :=
| step_create clientID clientType consensusState clientState :
    CreateClient initialize clientID clientType consensusState ctx
      = (ctx', Ok clientState) → step ctx ctx'
| step_create_err clientID clientType consensusState e :
    CreateClient initialize clientID clientType consensusState ctx
      = (ctx', Err e) → step ctx ctx'
| step_update clientID header r :
    UpdateClient tendermint_CheckValidityAndUpdateState clientID header ctx
      = (ctx', r) → step ctx ctx'
| step_misbehaviour misbehaviour r :
    CheckMisbehaviourAndUpdateState tendermint_CheckMisbehaviourAndUpdateState
      misbehaviour ctx = (ctx', r) → step ctx ctx'.

(** Correct operation: the contexts the keeper's calls lead to from a new
    context, whose store is empty. *)
Inductive reachable : Context → Prop :=
| reachable_new chainID : reachable (newContext chainID)
| reachable_step ctx ctx' : reachable ctx → step ctx ctx' → reachable ctx'.

End Runs.

(** ** A scenario: one client, created, updated, forked and frozen *)

Module Scenario.

Definition create := CreateClient (SpecVerifier.initialize 10).
Definition update := UpdateClient SpecVerifier.CheckValidityAndUpdateState.
Definition updateAll := UpdateClientAll SpecVerifier.CheckValidityAndUpdateState.
Definition check :=
  CheckMisbehaviourAndUpdateState SpecVerifier.CheckMisbehaviourAndUpdateState.

Definition hub : Context := newContext "hub".

Definition snapshot0 : ConsensusState := mkConsensusState "root0" "validators".

(** The client "chainA" is created at height 10. *)
Definition ctx_created : Context := (create "chainA" Tendermint snapshot0 hub).1.
Definition state_created : ClientState := mkClientState "chainA" 10 false 0.

(** Two headers for height 20 with the same validators and different roots,
    and one for height 30. *)
Definition header20 : Header := mkHeader Tendermint 20 "root20" "validators".
Definition fork20 : Header := mkHeader Tendermint 20 "fork20" "validators".
Definition header30 : Header := mkHeader Tendermint 30 "root30" "validators".

(** A header that claims another consensus type. *)
Definition foreign30 : Header := mkHeader (Unsupported 2) 30 "root30" "validators".

Definition ctx_updated : Context := (update "chainA" header20 ctx_created).1.
Definition state_updated : ClientState := mkClientState "chainA" 20 false 0.

(** The second header for height 20, submitted after the first. *)
Definition ctx_forked : Context := (update "chainA" fork20 ctx_updated).1.

(** Evidence of the fork at height 20, and the same evidence in a type the
    keeper does not know, claiming another consensus type. *)
Definition evidence20 : Misbehaviour :=
  TendermintEvidence (mkEvidenceData "chainA" 20 Tendermint header20 fork20).
Definition mock_evidence20 : Misbehaviour :=
  OtherEvidence "mock.Evidence"
    (mkEvidenceData "chainA" 20 (Unsupported 2) header20 fork20).

(** Evidence whose two headers agree. *)
Definition no_fork20 : Misbehaviour :=
  TendermintEvidence (mkEvidenceData "chainA" 20 Tendermint header20 header20).

Definition ctx_frozen : Context := (check evidence20 ctx_updated).1.
Definition state_frozen : ClientState := mkClientState "chainA" 20 true 20.

(** The store after the update, with the consensus type of "chainA"
    replaced by one that has no verifier. *)
Definition ctx_retagged : Context :=
  with_clientTypes {["chainA" := Unsupported 2]} ctx_updated.

(** The store after the update, with a consensus state written for height
    30, above the client's latest height. *)
Definition ctx_ahead : Context :=
  (SetClientConsensusState "chainA" 30
     (mkConsensusState "ahead30" "validators") ctx_updated).1.

(** A store that holds a consensus type for "chainB" and no client state,
    and one that holds a client state for it and no consensus type. *)
Definition ctx_type_only : Context :=
  with_clientTypes {["chainB" := Tendermint]} hub.
Definition ctx_state_only : Context :=
  with_clientTypes ∅ ctx_created.

End Scenario.

(** ** More on the store along sequences of calls *)

(** Modelled from the spec: Create hands [initialize] "an initial
    ConsensusState" for the new identifier; the consensus states that
    [initialize] adds, if any, are stored under that identifier. *)
Definition initialize_writes_own_snapshots
    (initialize : string → ClientType → ConsensusState → K ClientState) : Prop :=
  ∀ clientID clientType consensusState ctx ctx' clientState id height snapshot,
    initialize clientID clientType consensusState ctx = (ctx', Ok clientState) →
    consensusStates (store ctx') !! (id, height) = Some snapshot →
    consensusStates (store ctx) !! (id, height) = Some snapshot ∨ id = clientID.

(** Every stored consensus state is the snapshot of a client that has a
    client state. *)
Definition snapshots_belong_to_clients (ctx : Context) : Prop :=
  ∀ clientID height snapshot,
    consensusStates (store ctx) !! (clientID, height) = Some snapshot →
    is_Some (clientStates (store ctx) !! clientID).

(** The events and the log line of a successful update and of a successful
    check of misbehaviour. *)
Definition update_events (clientID : string) : list Event :=
  [NewEvent EventTypeUpdateClient
     [NewAttribute AttributeKeyClientID (AttributeString clientID)];
   NewEvent EventTypeMessage
     [NewAttribute AttributeKeyModule AttributeValueCategory]].

Definition misbehaviour_events (misbehaviour : Misbehaviour) : list Event :=
  [NewEvent EventTypeSubmitMisbehaviour
     [NewAttribute AttributeKeyClientID
        (AttributeString (Misbehaviour_GetClientID misbehaviour));
      NewAttribute AttributeKeyClientType
        (ClientTypeString (Misbehaviour_ClientType misbehaviour))]].

Module ScenarioMore.

Import Scenario.

(** Evidence for "chainA" whose height is negative. *)
Definition evidence_negative : Misbehaviour :=
  TendermintEvidence (mkEvidenceData "chainA" (-1) Tendermint header20 fork20).

(** A second client, created after the first was updated. *)
Definition ctx_two : Context :=
  (create "chainB" Tendermint snapshot0 ctx_updated).1.
Definition state_two : ClientState := mkClientState "chainB" 10 false 0.

(** The first client frozen, then the second one updated. *)
Definition ctx_two_frozen : Context := (check evidence20 ctx_two).1.
Definition ctx_two_later : Context := (update "chainB" header30 ctx_two_frozen).1.

End ScenarioMore.

(** The verifier above meets every contract. *)
Lemma SpecVerifier_initialize_aborts_cleanly h :
  initialize_aborts_cleanly (SpecVerifier.initialize h).
Proof.
  intros id t c ctx ctx' e. unfold SpecVerifier.initialize.
  destruct t; cbv; intros [= <- _]; reflexivity.
Qed.

Lemma SpecVerifier_initialize_keeps_identifier h :
  initialize_keeps_identifier (SpecVerifier.initialize h).
Proof.
  intros id t c ctx ctx' cs. unfold SpecVerifier.initialize.
  destruct t; cbv; intros [= _ <-]; reflexivity.
Qed.

Lemma SpecVerifier_initialize_leaves_clients h :
  initialize_leaves_clients (SpecVerifier.initialize h).
Proof.
  intros id t c ctx ctx' cs. unfold SpecVerifier.initialize.
  destruct t; cbv; intros [= <- _]; split; reflexivity.
Qed.

Lemma SpecVerifier_initialize_keeps_snapshots h :
  initialize_keeps_snapshots (SpecVerifier.initialize h).
Proof.
  intros id t c ctx ctx' r key snap. unfold SpecVerifier.initialize.
  destruct t; cbv -[lookup]; intros [= <- _]; auto.
Qed.

Lemma SpecVerifier_update_stays_active :
  update_stays_active SpecVerifier.CheckValidityAndUpdateState.
Proof.
  intros cs h chain cs' cons. unfold SpecVerifier.CheckValidityAndUpdateState.
  case_bool_decide; [discriminate|].
  destruct (Z.ltb_spec (Header_GetHeight h) (GetLatestHeight cs)); [discriminate|].
  intros [= <- _] Hfrozen. split; [assumption | exact Hfrozen].
Qed.

Lemma SpecVerifier_update_keeps_identifier :
  update_keeps_identifier SpecVerifier.CheckValidityAndUpdateState.
Proof.
  intros cs h chain cs' cons. unfold SpecVerifier.CheckValidityAndUpdateState.
  case_bool_decide; [discriminate|].
  destruct (_ <? _); [discriminate|]. intros [= <- _]. reflexivity.
Qed.

Lemma SpecVerifier_misbehaviour_keeps_identifier :
  misbehaviour_keeps_identifier SpecVerifier.CheckMisbehaviourAndUpdateState.
Proof.
  intros cs cons m h cs'. unfold SpecVerifier.CheckMisbehaviourAndUpdateState.
  destruct m; [|discriminate].
  destruct (_ && _); [|discriminate]. intros [= <-]. reflexivity.
Qed.

Lemma SpecVerifier_misbehaviour_freezes :
  misbehaviour_freezes SpecVerifier.CheckMisbehaviourAndUpdateState.
Proof.
  intros cs cons m h cs'. unfold SpecVerifier.CheckMisbehaviourAndUpdateState.
  destruct m; [|discriminate].
  destruct (_ && _); [|discriminate]. intros [= <-]. repeat split.
Qed.

(** ** The three operations, case by case *)

Ltac run_keeper :=
  unfold CreateClient, UpdateClient, CheckMisbehaviourAndUpdateState,
    mbind, K_bind, mret, K_ret, throw, panic, wrapErr, call, getChainID,
    GetClientState, GetClientType, GetClientConsensusState, SetClientState,
    SetClientType, SetClientConsensusState, EmitEvent, EmitEvents, LoggerInfo,
    with_store; simpl.

Section Operations.

Variable initialize :
  string → ClientType → ConsensusState → K ClientState.
Variable tendermint_CheckValidityAndUpdateState :
  ClientState → Header → string → (ClientState * ConsensusState) + error.
Variable tendermint_CheckMisbehaviourAndUpdateState :
  ClientState → ConsensusState → Misbehaviour → Z → ClientState + error.

Local Abbreviation CreateClient := (CreateClient initialize).
Local Abbreviation UpdateClient := (UpdateClient tendermint_CheckValidityAndUpdateState).
Local Abbreviation CheckMisbehaviourAndUpdateState :=
  (CheckMisbehaviourAndUpdateState tendermint_CheckMisbehaviourAndUpdateState).

Lemma CreateClient_cases clientID clientType consensusState ctx :
  CreateClient clientID clientType consensusState ctx =
  match clientStates (store ctx) !! clientID with
  | Some _ => (ctx, Err (Wrap ErrClientExists (create_description clientID)))
  | None =>
    match clientTypes (store ctx) !! clientID with
    | Some _ =>
        (ctx, Panic ("client type is already defined for client " +:+ clientID))
    | None =>
      match initialize clientID clientType consensusState ctx with
      | (ctx', Ok clientState) =>
          (created ctx' clientID clientType clientState, Ok clientState)
      | (ctx', Err e) => (ctx', Err (Wrap e (create_description clientID)))
      | (ctx', Panic msg) => (ctx', Panic msg)
      end
    end
  end.
Proof.
  run_keeper. destruct (clientStates (store ctx) !! clientID); [reflexivity|].
  destruct (clientTypes (store ctx) !! clientID); [reflexivity|].
  destruct (initialize clientID clientType consensusState ctx) as [ctx' [cs|e|msg]];
    reflexivity.
Qed.

Lemma UpdateClient_cases clientID header ctx :
  UpdateClient clientID header ctx =
  match clientTypes (store ctx) !! clientID with
  | None => (ctx, Err (Wrap ErrClientTypeNotFound (update_description clientID)))
  | Some clientType =>
    if bool_decide (Header_ClientType header ≠ clientType) then
      (ctx, Err (Wrap ErrInvalidConsensus (update_description clientID)))
    else
    match clientStates (store ctx) !! clientID with
    | None => (ctx, Err (Wrap ErrClientNotFound (update_description clientID)))
    | Some clientState =>
      if IsFrozen clientState then
        (ctx, Err (Wrap ErrClientFrozen (update_description clientID)))
      else
      match clientType with
      | Tendermint =>
          match tendermint_CheckValidityAndUpdateState
                  clientState header (ChainID ctx) with
          | inl (clientState', consensusState) =>
              (updated ctx clientID header clientState' consensusState, Ok ())
          | inr e => (ctx, Err (Wrap e (update_description clientID)))
          end
      | Unsupported _ =>
          (ctx, Err (Wrap ErrInvalidClientType (update_description clientID)))
      end
    end
  end.
Proof.
  run_keeper. destruct (clientTypes (store ctx) !! clientID) as [t|]; [|reflexivity].
  destruct (bool_decide (Header_ClientType header ≠ t)); [reflexivity|].
  destruct (clientStates (store ctx) !! clientID) as [cs|]; [|reflexivity].
  destruct (IsFrozen cs); [reflexivity|].
  destruct t; [|reflexivity].
  destruct (tendermint_CheckValidityAndUpdateState cs header (ChainID ctx))
    as [[cs' cons]|e]; reflexivity.
Qed.

Lemma CheckMisbehaviourAndUpdateState_cases misbehaviour ctx :
  CheckMisbehaviourAndUpdateState misbehaviour ctx =
  match clientStates (store ctx) !! Misbehaviour_GetClientID misbehaviour with
  | None =>
      (ctx, Err (Wrap ErrClientNotFound (Misbehaviour_GetClientID misbehaviour)))
  | Some clientState =>
    match consensusStates (store ctx)
            !! (Misbehaviour_GetClientID misbehaviour,
                uint64 (Misbehaviour_GetHeight misbehaviour)) with
    | None =>
        (ctx, Err (Wrap ErrConsensusStateNotFound
                     (Misbehaviour_GetClientID misbehaviour)))
    | Some consensusState =>
      match misbehaviour with
      | TendermintEvidence _ =>
          match tendermint_CheckMisbehaviourAndUpdateState
                  clientState consensusState misbehaviour
                  (uint64 (Misbehaviour_GetHeight misbehaviour)) with
          | inl clientState' => (frozen_by ctx misbehaviour clientState', Ok ())
          | inr e => (ctx, Err e)
          end
      | OtherEvidence goType _ =>
          (ctx, Err (Wrap ErrUnknownRequest
                       ("unrecognized IBC client evidence type: " +:+ goType)))
      end
    end
  end.
Proof.
  run_keeper.
  destruct (clientStates (store ctx) !! Misbehaviour_GetClientID misbehaviour)
    as [cs|]; [|reflexivity].
  destruct (consensusStates (store ctx) !! _) as [cons|]; [|reflexivity].
  destruct misbehaviour as [e|ty e]; [|reflexivity].
  destruct (tendermint_CheckMisbehaviourAndUpdateState _ _ _ _); reflexivity.
Qed.

(** An update or a misbehaviour check that returns an error returns the
    context it was given. *)
Lemma UpdateClient_error clientID header ctx ctx' e :
  UpdateClient clientID header ctx = (ctx', Err e) → ctx' = ctx.
Proof.
  rewrite UpdateClient_cases.
  repeat (case_match; try discriminate); congruence.
Qed.

Lemma CheckMisbehaviourAndUpdateState_error misbehaviour ctx ctx' e :
  CheckMisbehaviourAndUpdateState misbehaviour ctx = (ctx', Err e) → ctx' = ctx.
Proof.
  rewrite CheckMisbehaviourAndUpdateState_cases.
  repeat (case_match; try discriminate); congruence.
Qed.

Lemma UpdateClient_never_panics clientID header ctx ctx' msg :
  UpdateClient clientID header ctx ≠ (ctx', Panic msg).
Proof.
  rewrite UpdateClient_cases.
  repeat (case_match; try discriminate).
Qed.

Lemma CheckMisbehaviourAndUpdateState_never_panics misbehaviour ctx ctx' msg :
  CheckMisbehaviourAndUpdateState misbehaviour ctx ≠ (ctx', Panic msg).
Proof.
  rewrite CheckMisbehaviourAndUpdateState_cases.
  repeat (case_match; try discriminate).
Qed.

End Operations.

(** ** Properties of the keeper *)

Section Claims.

Variable initialize :
  string → ClientType → ConsensusState → K ClientState.
Variable tendermint_CheckValidityAndUpdateState :
  ClientState → Header → string → (ClientState * ConsensusState) + error.
Variable tendermint_CheckMisbehaviourAndUpdateState :
  ClientState → ConsensusState → Misbehaviour → Z → ClientState + error.

Local Abbreviation CreateClient := (CreateClient initialize).
Local Abbreviation UpdateClient := (UpdateClient tendermint_CheckValidityAndUpdateState).
Local Abbreviation CheckMisbehaviourAndUpdateState :=
  (CheckMisbehaviourAndUpdateState tendermint_CheckMisbehaviourAndUpdateState).

(** C1, as amended.  [UpdateClient] on a client whose stored state is frozen
    fails for every header and returns the context it was given, store
    included.  The error is [ErrClientFrozen] when a consensus type is
    stored for the client and the header's type equals it; the two checks
    that come first answer [ErrClientTypeNotFound] when no type is stored
    and [ErrInvalidConsensus] when the header's type differs. *)
Theorem UpdateClient_frozen clientID header ctx clientState :
  clientStates (store ctx) !! clientID = Some clientState →
  IsFrozen clientState = true →
  UpdateClient clientID header ctx =
    (ctx,
     Err (Wrap
            match clientTypes (store ctx) !! clientID with
            | None => ErrClientTypeNotFound
            | Some clientType =>
                if bool_decide (Header_ClientType header = clientType)
                then ErrClientFrozen else ErrInvalidConsensus
            end
            (update_description clientID))).
Proof.
  intros Hstate Hfrozen. rewrite UpdateClient_cases, Hstate, Hfrozen.
  destruct (clientTypes (store ctx) !! clientID) as [t|]; [|reflexivity].
  destruct (decide (Header_ClientType header = t)) as [Heq|Hne].
  - rewrite (bool_decide_eq_false_2 _ (λ H, H Heq)), (bool_decide_eq_true_2 _ Heq).
    reflexivity.
  - rewrite (bool_decide_eq_true_2 _ Hne), (bool_decide_eq_false_2 _ Hne).
    reflexivity.
Qed.

(** C4.  An operation that returns an error writes nothing to the store.
    [UpdateClient] and [CheckMisbehaviourAndUpdateState] return the very
    context they were given, so the client state read again after a failed
    update is the one before it, and evidence the verifier rejects leaves
    the context as it was and hands the verifier's error to the caller.
    [CreateClient] writes only after [initialize] has succeeded, so it
    leaves the store as it was provided that [initialize], when it fails,
    does. *)
Theorem failed_operation_writes_nothing :
  initialize_aborts_cleanly initialize →
  (∀ clientID clientType consensusState ctx ctx' e,
     CreateClient clientID clientType consensusState ctx = (ctx', Err e) →
     store ctx' = store ctx)
  ∧ (∀ clientID header ctx ctx' e,
       UpdateClient clientID header ctx = (ctx', Err e) →
       ctx' = ctx
       ∧ GetClientState clientID ctx' = GetClientState clientID ctx)
  ∧ (∀ misbehaviour ctx ctx' e,
       CheckMisbehaviourAndUpdateState misbehaviour ctx = (ctx', Err e) →
       ctx' = ctx)
  ∧ (∀ misbehaviour ctx clientState consensusState e,
       clientStates (store ctx) !! Misbehaviour_GetClientID misbehaviour
         = Some clientState →
       consensusStates (store ctx)
         !! (Misbehaviour_GetClientID misbehaviour,
             uint64 (Misbehaviour_GetHeight misbehaviour)) = Some consensusState →
       tendermint_CheckMisbehaviourAndUpdateState clientState consensusState
         misbehaviour (uint64 (Misbehaviour_GetHeight misbehaviour)) = inr e →
       CheckMisbehaviourAndUpdateState misbehaviour ctx
         = (ctx,
            Err match misbehaviour with
                | TendermintEvidence _ => e
                | OtherEvidence goType _ =>
                    Wrap ErrUnknownRequest
                      ("unrecognized IBC client evidence type: " +:+ goType)
                end)).
Proof.
  intros Hinit. repeat split.
  - intros id t c ctx ctx' e. rewrite CreateClient_cases.
    destruct (clientStates (store ctx) !! id); [intros [= <- _]; reflexivity|].
    destruct (clientTypes (store ctx) !! id); [discriminate|].
    destruct (initialize id t c ctx) as [ctx1 [cs|e1|msg]] eqn:Hi; try discriminate.
    intros [= <- _]. exact (Hinit _ _ _ _ _ _ Hi).
  - eapply UpdateClient_error; eassumption.
  - apply UpdateClient_error in H. subst. reflexivity.
  - intros m ctx ctx' e. apply CheckMisbehaviourAndUpdateState_error.
  - intros m ctx cs cons e Hcs Hcons Hreject.
    rewrite CheckMisbehaviourAndUpdateState_cases, Hcs, Hcons.
    destruct m; [rewrite Hreject|]; reflexivity.
Qed.

(** C6, as amended.  [UpdateClient] returns [ErrInvalidConsensus], and the
    context it was given, for a header whose [ClientType] differs from the
    stored consensus type.  [CheckMisbehaviourAndUpdateState] never reads
    the stored consensus type: with any other map of consensus types it
    does the same.  It selects the verifier by the concrete type of the
    evidence, and evidence of a type it does not recognise is rejected with
    [ErrUnknownRequest] (after [ErrClientNotFound] and
    [ErrConsensusStateNotFound]), the context unchanged. *)
Theorem type_mismatch_handling :
  (∀ clientID header ctx clientType,
     clientTypes (store ctx) !! clientID = Some clientType →
     Header_ClientType header ≠ clientType →
     UpdateClient clientID header ctx
       = (ctx, Err (Wrap ErrInvalidConsensus (update_description clientID))))
  ∧ (∀ misbehaviour ctx types,
       CheckMisbehaviourAndUpdateState misbehaviour (with_clientTypes types ctx)
       = (with_clientTypes types
            (CheckMisbehaviourAndUpdateState misbehaviour ctx).1,
          (CheckMisbehaviourAndUpdateState misbehaviour ctx).2))
  ∧ (∀ goType e ctx,
       ∃ err,
         CheckMisbehaviourAndUpdateState (OtherEvidence goType e) ctx
           = (ctx, Err err)
         ∧ (Cause err = ErrClientNotFound
            ∨ Cause err = ErrConsensusStateNotFound
            ∨ Cause err = ErrUnknownRequest)).
Proof.
  repeat split.
  - intros id h ctx t Ht Hne. rewrite UpdateClient_cases, Ht.
    rewrite (bool_decide_eq_true_2 _ Hne). reflexivity.
  - intros m ctx types. rewrite !CheckMisbehaviourAndUpdateState_cases. simpl.
    repeat case_match; reflexivity.
  - intros ty e ctx. rewrite CheckMisbehaviourAndUpdateState_cases.
    repeat case_match; eexists; (split; [reflexivity|]); simpl; auto.
Qed.

(** C8, as amended.  For a stored consensus type without a verifier,
    [UpdateClient] fails for every header and returns the context it was
    given: it is never a success.  The error is [ErrInvalidClientType] once
    the checks that come first have passed: the header's type equals the
    stored one (else [ErrInvalidConsensus]), a client state is stored (else
    [ErrClientNotFound]) and it is not frozen (else [ErrClientFrozen]). *)
Theorem UpdateClient_unsupported clientID header ctx tag :
  clientTypes (store ctx) !! clientID = Some (Unsupported tag) →
  UpdateClient clientID header ctx =
    (ctx,
     Err (Wrap
            (if bool_decide (Header_ClientType header = Unsupported tag) then
               match clientStates (store ctx) !! clientID with
               | None => ErrClientNotFound
               | Some clientState =>
                   if IsFrozen clientState then ErrClientFrozen
                   else ErrInvalidClientType
               end
             else ErrInvalidConsensus)
            (update_description clientID))).
Proof.
  intros Htag. rewrite UpdateClient_cases, Htag.
  destruct (decide (Header_ClientType header = Unsupported tag)) as [Heq|Hne].
  - rewrite (bool_decide_eq_false_2 _ (λ H, H Heq)), (bool_decide_eq_true_2 _ Heq).
    repeat case_match; reflexivity.
  - rewrite (bool_decide_eq_true_2 _ Hne), (bool_decide_eq_false_2 _ Hne).
    reflexivity.
Qed.

(** C9.  After a successful [CreateClient] the client state it returned is
    stored under the identifier, and a second [CreateClient] with the same
    identifier, whatever its other arguments, fails with [ErrClientExists]
    and returns the context unchanged, the stored client state with it.
    The state is stored under the identifier it carries, which is the one
    [initialize] was given. *)
Theorem CreateClient_twice clientID clientType consensusState ctx ctx1 clientState :
  initialize_keeps_identifier initialize →
  CreateClient clientID clientType consensusState ctx = (ctx1, Ok clientState) →
  clientStates (store ctx1) !! clientID = Some clientState
  ∧ ∀ clientType' consensusState',
      CreateClient clientID clientType' consensusState' ctx1
        = (ctx1, Err (Wrap ErrClientExists (create_description clientID))).
Proof.
  intros Hid. rewrite CreateClient_cases.
  destruct (clientStates (store ctx) !! clientID); [discriminate|].
  destruct (clientTypes (store ctx) !! clientID); [discriminate|].
  destruct (initialize clientID clientType consensusState ctx)
    as [ctx' [cs|e|msg]] eqn:Hi; try discriminate.
  intros [= <- <-]. apply Hid in Hi.
  assert (Hstored : clientStates (store (created ctx' clientID clientType cs))
                      !! clientID = Some cs).
  { simpl. rewrite Hi. apply lookup_insert_eq. }
  split; [exact Hstored|].
  intros t' c'. rewrite CreateClient_cases, Hstored. reflexivity.
Qed.

(** C10.  [CheckMisbehaviourAndUpdateState] does not look at the frozen flag
    of the stored client state.  Once a client state is stored for the
    evidence's identifier and a consensus state at the evidence's height,
    the outcome is the verifier's; so for a client that is already frozen,
    evidence the verifier accepts succeeds again and the verifier's result
    replaces the stored client state. *)
Theorem misbehaviour_on_frozen_client misbehaviour ctx clientState consensusState :
  clientStates (store ctx) !! Misbehaviour_GetClientID misbehaviour
    = Some clientState →
  consensusStates (store ctx)
    !! (Misbehaviour_GetClientID misbehaviour,
        uint64 (Misbehaviour_GetHeight misbehaviour)) = Some consensusState →
  CheckMisbehaviourAndUpdateState misbehaviour ctx =
    match misbehaviour with
    | TendermintEvidence _ =>
        match tendermint_CheckMisbehaviourAndUpdateState clientState
                consensusState misbehaviour
                (uint64 (Misbehaviour_GetHeight misbehaviour)) with
        | inl clientState' => (frozen_by ctx misbehaviour clientState', Ok ())
        | inr e => (ctx, Err e)
        end
    | OtherEvidence goType _ =>
        (ctx, Err (Wrap ErrUnknownRequest
                     ("unrecognized IBC client evidence type: " +:+ goType)))
    end
  ∧ ∀ e clientState',
      IsFrozen clientState = true →
      misbehaviour = TendermintEvidence e →
      tendermint_CheckMisbehaviourAndUpdateState clientState consensusState
        misbehaviour (uint64 (Misbehaviour_GetHeight misbehaviour))
        = inl clientState' →
      ∃ ctx',
        CheckMisbehaviourAndUpdateState misbehaviour ctx = (ctx', Ok ())
        ∧ clientStates (store ctx') !! GetID clientState' = Some clientState'
        ∧ (GetID clientState' = Misbehaviour_GetClientID misbehaviour →
           GetClientState (Misbehaviour_GetClientID misbehaviour) ctx'
             = (ctx', Ok (Some clientState'))).
Proof.
  intros Hcs Hcons.
  rewrite CheckMisbehaviourAndUpdateState_cases, Hcs, Hcons.
  split; [reflexivity|].
  intros e cs' _ -> Haccept. rewrite Haccept.
  eexists; split; [reflexivity|]. simpl. split.
  - apply lookup_insert_eq.
  - intros Hid. unfold GetClientState. simpl. rewrite Hid.
    rewrite lookup_insert_eq. reflexivity.
Qed.

End Claims.

(** ** Properties along sequences of calls *)

Section Invariants.

Variable initialize :
  string → ClientType → ConsensusState → K ClientState.
Variable tendermint_CheckValidityAndUpdateState :
  ClientState → Header → string → (ClientState * ConsensusState) + error.
Variable tendermint_CheckMisbehaviourAndUpdateState :
  ClientState → ConsensusState → Misbehaviour → Z → ClientState + error.

Local Abbreviation CreateClient := (CreateClient initialize).
Local Abbreviation UpdateClient := (UpdateClient tendermint_CheckValidityAndUpdateState).
Local Abbreviation CheckMisbehaviourAndUpdateState :=
  (CheckMisbehaviourAndUpdateState tendermint_CheckMisbehaviourAndUpdateState).
Local Abbreviation step :=
  (step initialize tendermint_CheckValidityAndUpdateState
     tendermint_CheckMisbehaviourAndUpdateState).
Local Abbreviation reachable :=
  (reachable initialize tendermint_CheckValidityAndUpdateState
     tendermint_CheckMisbehaviourAndUpdateState).

Lemma consistent_new chainID : consistent (newContext chainID).
Proof.
  split.
  - intros id cs. simpl. rewrite lookup_empty. discriminate.
  - intros id. simpl. rewrite !lookup_empty.
    split; intros [x Hx]; discriminate.
Qed.

Lemma consistent_same_store ctx ctx' :
  store ctx' = store ctx → consistent ctx → consistent ctx'.
Proof.
  unfold consistent, keyed_by_identifier. intros ->. tauto.
Qed.

(** Replacing the state of a client that has one keeps the store
    consistent. *)
Lemma consistent_replace ctx ctx' clientState clientState' :
  consistent ctx →
  clientStates (store ctx) !! GetID clientState' = Some clientState →
  clientStates (store ctx')
    = <[GetID clientState' := clientState']> (clientStates (store ctx)) →
  clientTypes (store ctx') = clientTypes (store ctx) →
  consistent ctx'.
Proof.
  intros [Hkey Hdom] Hold Hstates Htypes. split.
  - intros id cs. rewrite Hstates.
    destruct (decide (GetID clientState' = id)) as [<-|Hne].
    + rewrite lookup_insert_eq. intros [= <-]. reflexivity.
    + rewrite lookup_insert_ne by assumption. apply Hkey.
  - intros id. rewrite Hstates, Htypes, <- Hdom.
    destruct (decide (GetID clientState' = id)) as [<-|Hne].
    + rewrite lookup_insert_eq, Hold. split; eauto.
    + rewrite lookup_insert_ne by assumption. reflexivity.
Qed.

Lemma step_consistent ctx ctx' :
  initialize_aborts_cleanly initialize →
  initialize_keeps_identifier initialize →
  initialize_leaves_clients initialize →
  update_keeps_identifier tendermint_CheckValidityAndUpdateState →
  misbehaviour_keeps_identifier tendermint_CheckMisbehaviourAndUpdateState →
  step ctx ctx' → consistent ctx → consistent ctx'.
Proof.
  intros Habort Hinit Hleave Hupd Hmis Hstep Hc.
  destruct Hstep as [id t c cs H|id t c e H|id h r H|m r H].
  - rewrite CreateClient_cases in H.
    destruct (clientStates (store ctx) !! id) eqn:Hs; [discriminate|].
    destruct (clientTypes (store ctx) !! id) eqn:Ht; [discriminate|].
    destruct (initialize id t c ctx) as [ctx1 [cs1|e1|msg]] eqn:Hi;
      try discriminate.
    injection H as <- <-.
    pose proof (Hinit _ _ _ _ _ _ Hi) as Hid.
    destruct (Hleave _ _ _ _ _ _ Hi) as [Hst Hty].
    destruct Hc as [Hkey Hdom]. split.
    + intros id' cs'. simpl. rewrite Hid, Hst.
      destruct (decide (id = id')) as [<-|Hne].
      * rewrite lookup_insert_eq. intros [= <-]. exact Hid.
      * rewrite lookup_insert_ne by assumption. apply Hkey.
    + intros id'. simpl. rewrite Hid, Hst, Hty.
      destruct (decide (id = id')) as [<-|Hne].
      * rewrite !lookup_insert_eq. split; eauto.
      * rewrite !lookup_insert_ne by assumption. apply Hdom.
  - rewrite CreateClient_cases in H.
    destruct (clientStates (store ctx) !! id) eqn:Hs.
    { injection H as <- _. exact Hc. }
    destruct (clientTypes (store ctx) !! id) eqn:Ht; [discriminate|].
    destruct (initialize id t c ctx) as [ctx1 [cs1|e1|msg]] eqn:Hi;
      try discriminate.
    injection H as <- _.
    exact (consistent_same_store _ _ (Habort _ _ _ _ _ _ Hi) Hc).
  - rewrite UpdateClient_cases in H.
    destruct (clientTypes (store ctx) !! id) as [ty|];
      [|injection H as <- _; exact Hc].
    destruct (bool_decide _); [injection H as <- _; exact Hc|].
    destruct (clientStates (store ctx) !! id) as [cs|] eqn:Hs;
      [|injection H as <- _; exact Hc].
    destruct (IsFrozen cs); [injection H as <- _; exact Hc|].
    destruct ty; [|injection H as <- _; exact Hc].
    destruct (tendermint_CheckValidityAndUpdateState cs h (ChainID ctx))
      as [[cs' cons]|e] eqn:Hv; [|injection H as <- _; exact Hc].
    injection H as <- _.
    apply (consistent_replace ctx _ cs cs' Hc); [|reflexivity|reflexivity].
    rewrite (Hupd _ _ _ _ _ Hv), (proj1 Hc _ _ Hs). exact Hs.
  - rewrite CheckMisbehaviourAndUpdateState_cases in H.
    destruct (clientStates (store ctx) !! Misbehaviour_GetClientID m)
      as [cs|] eqn:Hs; [|injection H as <- _; exact Hc].
    destruct (consensusStates (store ctx) !! _) as [cons|];
      [|injection H as <- _; exact Hc].
    destruct m as [e|ty e]; [|injection H as <- _; exact Hc].
    destruct (tendermint_CheckMisbehaviourAndUpdateState _ _ _ _)
      as [cs'|err] eqn:Hv; [|injection H as <- _; exact Hc].
    injection H as <- _.
    apply (consistent_replace ctx _ cs cs' Hc); [|reflexivity|reflexivity].
    rewrite (Hmis _ _ _ _ _ Hv), (proj1 Hc _ _ Hs). exact Hs.
Qed.

Lemma reachable_consistent ctx :
  initialize_aborts_cleanly initialize →
  initialize_keeps_identifier initialize →
  initialize_leaves_clients initialize →
  update_keeps_identifier tendermint_CheckValidityAndUpdateState →
  misbehaviour_keeps_identifier tendermint_CheckMisbehaviourAndUpdateState →
  reachable ctx → consistent ctx.
Proof.
  intros Habort Hinit Hleave Hupd Hmis. induction 1 as [chain|ctx ctx' _ IH Hstep].
  - apply consistent_new.
  - exact (step_consistent _ _ Habort Hinit Hleave Hupd Hmis Hstep IH).
Qed.

Lemma consistent_not_corrupted ctx clientID :
  consistent ctx → ¬ corrupted_at ctx clientID.
Proof.
  intros [_ Hdom] [[Ht Hs]|[Hs Ht]].
  - apply Hdom in Ht. rewrite Hs in Ht. destruct Ht; discriminate.
  - apply Hdom in Hs. rewrite Ht in Hs. destruct Hs; discriminate.
Qed.

(** C5, as amended.  A consensus type stored without a client state makes
    [CreateClient] panic, the context untouched.  [UpdateClient] never
    panics: on a consensus type without a client state it returns
    [ErrInvalidConsensus] or [ErrClientNotFound], on a client state without
    a consensus type [ErrClientTypeNotFound], all ordinary errors; and
    [CreateClient] on a client state without a consensus type returns
    [ErrClientExists].  No context the keeper's calls lead to from a new one
    is corrupted, when [initialize] and the verifier keep the identifier of
    the client state and [initialize] leaves the two maps to
    [CreateClient]. *)
Theorem store_corruption_handling :
  (∀ clientID clientType consensusState ctx,
     is_Some (clientTypes (store ctx) !! clientID) →
     clientStates (store ctx) !! clientID = None →
     CreateClient clientID clientType consensusState ctx
       = (ctx, Panic ("client type is already defined for client " +:+ clientID)))
  ∧ (∀ clientID header ctx ctx' msg,
       UpdateClient clientID header ctx ≠ (ctx', Panic msg))
  ∧ (∀ clientID header ctx clientType,
       clientTypes (store ctx) !! clientID = Some clientType →
       clientStates (store ctx) !! clientID = None →
       UpdateClient clientID header ctx
         = (ctx,
            Err (Wrap (if bool_decide (Header_ClientType header = clientType)
                       then ErrClientNotFound else ErrInvalidConsensus)
                   (update_description clientID))))
  ∧ (∀ clientID ctx,
       is_Some (clientStates (store ctx) !! clientID) →
       clientTypes (store ctx) !! clientID = None →
       (∀ header,
          UpdateClient clientID header ctx
            = (ctx, Err (Wrap ErrClientTypeNotFound (update_description clientID))))
       ∧ (∀ clientType consensusState,
            CreateClient clientID clientType consensusState ctx
              = (ctx, Err (Wrap ErrClientExists (create_description clientID)))))
  ∧ (initialize_aborts_cleanly initialize →
     initialize_keeps_identifier initialize →
     initialize_leaves_clients initialize →
     update_keeps_identifier tendermint_CheckValidityAndUpdateState →
     misbehaviour_keeps_identifier tendermint_CheckMisbehaviourAndUpdateState →
     ∀ ctx clientID, reachable ctx → ¬ corrupted_at ctx clientID).
Proof.
  split; [|split; [|split; [|split]]].
  - intros id t c ctx [ty Hty] Hs. rewrite CreateClient_cases, Hs, Hty. reflexivity.
  - intros id h ctx ctx' msg. apply UpdateClient_never_panics.
  - intros id h ctx t Ht Hs. rewrite UpdateClient_cases, Ht, Hs.
    destruct (decide (Header_ClientType h = t)) as [Heq|Hne].
    + rewrite (bool_decide_eq_false_2 _ (λ H, H Heq)), (bool_decide_eq_true_2 _ Heq).
      reflexivity.
    + rewrite (bool_decide_eq_true_2 _ Hne), (bool_decide_eq_false_2 _ Hne).
      reflexivity.
  - intros id ctx [cs Hs] Ht. split.
    + intros h. rewrite UpdateClient_cases, Ht. reflexivity.
    + intros t c. rewrite CreateClient_cases, Hs. reflexivity.
  - intros Habort Hinit Hleave Hupd Hmis ctx id Hreach.
    apply consistent_not_corrupted.
    exact (reachable_consistent ctx Habort Hinit Hleave Hupd Hmis Hreach).
Qed.

End Invariants.

(** ** Updates in sequence, freezing, and the history of snapshots *)

Section History.

Variable initialize :
  string → ClientType → ConsensusState → K ClientState.
Variable tendermint_CheckValidityAndUpdateState :
  ClientState → Header → string → (ClientState * ConsensusState) + error.
Variable tendermint_CheckMisbehaviourAndUpdateState :
  ClientState → ConsensusState → Misbehaviour → Z → ClientState + error.

Local Abbreviation CreateClient := (CreateClient initialize).
Local Abbreviation UpdateClient := (UpdateClient tendermint_CheckValidityAndUpdateState).
Local Abbreviation UpdateClientAll :=
  (UpdateClientAll tendermint_CheckValidityAndUpdateState).
Local Abbreviation CheckMisbehaviourAndUpdateState :=
  (CheckMisbehaviourAndUpdateState tendermint_CheckMisbehaviourAndUpdateState).
Local Abbreviation step :=
  (step initialize tendermint_CheckValidityAndUpdateState
     tendermint_CheckMisbehaviourAndUpdateState).

(** What a successful update says of the state it read and stores. *)
Lemma UpdateClient_ok clientID header ctx ctx' :
  UpdateClient clientID header ctx = (ctx', Ok ()) →
  ∃ clientState clientState' consensusState,
    clientTypes (store ctx) !! clientID = Some Tendermint
    ∧ Header_ClientType header = Tendermint
    ∧ clientStates (store ctx) !! clientID = Some clientState
    ∧ IsFrozen clientState = false
    ∧ tendermint_CheckValidityAndUpdateState clientState header (ChainID ctx)
        = inl (clientState', consensusState)
    ∧ ctx' = updated ctx clientID header clientState' consensusState.
Proof.
  rewrite UpdateClient_cases.
  destruct (clientTypes (store ctx) !! clientID) as [t|]; [|discriminate].
  case_bool_decide as Hty; [discriminate|].
  destruct (clientStates (store ctx) !! clientID) as [cs|]; [|discriminate].
  destruct (IsFrozen cs) eqn:Hf; [discriminate|].
  destruct t; [|discriminate].
  destruct (tendermint_CheckValidityAndUpdateState cs header (ChainID ctx))
    as [[cs' cons]|e] eqn:Hv; [|discriminate].
  intros [= <-]. exists cs, cs', cons.
  repeat split; assumption.
Qed.

Lemma UpdateClient_ok_height clientID header ctx ctx' clientState :
  update_stays_active tendermint_CheckValidityAndUpdateState →
  UpdateClient clientID header ctx = (ctx', Ok ()) →
  clientStates (store ctx) !! clientID = Some clientState →
  IsFrozen clientState = false
  ∧ ∃ clientState',
      clientStates (store ctx') !! clientID = Some clientState'
      ∧ GetLatestHeight clientState ≤ GetLatestHeight clientState'
      ∧ IsFrozen clientState' = false.
Proof using tendermint_CheckValidityAndUpdateState.
  intros Hactive Hok Hcs.
  destruct (UpdateClient_ok _ _ _ _ Hok)
    as (cs & cs' & cons & _ & _ & Hcs0 & Hf & Hv & ->).
  rewrite Hcs in Hcs0. injection Hcs0 as <-.
  split; [assumption|].
  destruct (Hactive _ _ _ _ _ Hv Hf) as [Hle Hf'].
  destruct (decide (GetID cs' = clientID)) as [Hid|Hid].
  - exists cs'. simpl. rewrite Hid, lookup_insert_eq. auto.
  - exists clientState. simpl. rewrite lookup_insert_ne by assumption.
    repeat split; [assumption|lia|assumption].
Qed.

(** C2.  Headers submitted one after the other to one client, each accepted
    by [UpdateClient]: the latest heights read from the store after each
    update never decrease, starting from the height before the first
    update, and the client is not frozen before the first update nor after
    any of them.  The verifier is one that, from a state that is not frozen,
    returns a state that is not frozen and whose height is not lower. *)
Theorem latest_height_never_decreases clientID headers ctx ctxs clientState :
  update_stays_active tendermint_CheckValidityAndUpdateState →
  clientStates (store ctx) !! clientID = Some clientState →
  UpdateClientAll clientID headers ctx = Some ctxs →
  ∃ heights,
    (λ c, latestHeightOf c clientID) <$> ctxs = Some <$> heights
    ∧ StronglySorted Z.le (GetLatestHeight clientState :: heights)
    ∧ Forall (λ c, frozenOf c clientID = Some false) ctxs
    ∧ (headers ≠ [] → IsFrozen clientState = false)
    ∧ length ctxs = length headers.
Proof using tendermint_CheckValidityAndUpdateState.
  intros Hactive. revert ctx ctxs clientState.
  induction headers as [|header rest IH]; intros ctx ctxs cs Hcs Hrun; simpl in Hrun.
  - injection Hrun as <-. exists [].
    split; [reflexivity|]. split; [repeat constructor|].
    split; [constructor|]. split; [intros Hne; destruct (Hne eq_refl)|reflexivity].
  - destruct (UpdateClient clientID header ctx) as [ctx1 [[]|e|msg]] eqn:Hstep;
      try discriminate.
    destruct (UpdateClientAll clientID rest ctx1) as [ctxs1|] eqn:Hrest;
      [|discriminate].
    injection Hrun as <-.
    destruct (UpdateClient_ok_height _ _ _ _ _ Hactive Hstep Hcs)
      as (Hf & cs1 & Hcs1 & Hle & Hf1).
    destruct (IH _ _ _ Hcs1 Hrest) as (hs & Hhs & Hsorted & Hfrozen & _ & Hlen).
    exists (GetLatestHeight cs1 :: hs). repeat split.
    + simpl. unfold latestHeightOf at 1. rewrite Hcs1. simpl. f_equal. exact Hhs.
    + constructor; [exact Hsorted|].
      constructor; [exact Hle|].
      apply StronglySorted_inv in Hsorted as [_ Hall].
      eapply Forall_impl; [exact Hall|]. simpl. intros h Hh. lia.
    + constructor; [|exact Hfrozen].
      unfold frozenOf. rewrite Hcs1. simpl. f_equal. exact Hf1.
    + intros _. exact Hf.
    + simpl. f_equal. exact Hlen.
Qed.

(** C3.  Evidence of the Tendermint type that the verifier accepts against
    the client state stored for its identifier and the consensus state
    stored at its height: [CheckMisbehaviourAndUpdateState] succeeds, the
    client state read back is frozen, its frozen height is the evidence's
    height (as the keeper converts it, which is the height itself for a
    height that is not negative), its latest height is the one it had, and
    every stored consensus state is as before.  The client state is stored
    under its own identifier, and the verifier is one that sets the frozen
    flag and height and keeps the latest height and the identifier. *)
Theorem misbehaviour_freezes_client e ctx clientState consensusState clientState' :
  let misbehaviour := TendermintEvidence e in
  misbehaviour_freezes tendermint_CheckMisbehaviourAndUpdateState →
  misbehaviour_keeps_identifier tendermint_CheckMisbehaviourAndUpdateState →
  keyed_by_identifier ctx →
  clientStates (store ctx) !! Misbehaviour_GetClientID misbehaviour
    = Some clientState →
  consensusStates (store ctx)
    !! (Misbehaviour_GetClientID misbehaviour,
        uint64 (Misbehaviour_GetHeight misbehaviour)) = Some consensusState →
  tendermint_CheckMisbehaviourAndUpdateState clientState consensusState
    misbehaviour (uint64 (Misbehaviour_GetHeight misbehaviour))
    = inl clientState' →
  ∃ ctx',
    CheckMisbehaviourAndUpdateState misbehaviour ctx = (ctx', Ok ())
    ∧ clientStates (store ctx') !! Misbehaviour_GetClientID misbehaviour
        = Some clientState'
    ∧ IsFrozen clientState' = true
    ∧ FrozenHeight clientState' = uint64 (Misbehaviour_GetHeight misbehaviour)
    ∧ (0 ≤ Misbehaviour_GetHeight misbehaviour < 2 ^ 64 →
       FrozenHeight clientState' = Misbehaviour_GetHeight misbehaviour)
    ∧ GetLatestHeight clientState' = GetLatestHeight clientState
    ∧ consensusStates (store ctx') = consensusStates (store ctx).
Proof.
  intros m Hfreeze Hkeep Hkey Hcs Hcons Haccept.
  exists (frozen_by ctx m clientState').
  destruct (Hfreeze _ _ _ _ _ Haccept) as (Hf & Hh & Hl).
  pose proof (Hkeep _ _ _ _ _ Haccept) as Hid.
  rewrite (Hkey _ _ Hcs) in Hid.
  repeat split; try assumption.
  - rewrite CheckMisbehaviourAndUpdateState_cases, Hcs, Hcons.
    subst m. simpl. simpl in Haccept. rewrite Haccept. reflexivity.
  - simpl. rewrite Hid. apply lookup_insert_eq.
  - intros Hrange. rewrite Hh. unfold uint64. apply Z.mod_small. exact Hrange.
Qed.

(** C7, as amended.  No call of the keeper removes a stored consensus
    state: the identifiers and heights that have one only grow in number.
    [CreateClient] (where [initialize] replaces none) and
    [CheckMisbehaviourAndUpdateState] leave every stored consensus state as
    it is, and so does [UpdateClient] for every entry but the one of its own
    identifier at the header's height.  That one a successful update writes
    without looking: it then holds the verifier's result, whatever was
    stored there. *)
Theorem snapshots_kept_except_at_update :
  initialize_keeps_snapshots initialize →
  (∀ ctx ctx' key snapshot,
     step ctx ctx' →
     consensusStates (store ctx) !! key = Some snapshot →
     is_Some (consensusStates (store ctx') !! key))
  ∧ (∀ clientID clientType consensusState ctx ctx' r key snapshot,
       CreateClient clientID clientType consensusState ctx = (ctx', r) →
       consensusStates (store ctx) !! key = Some snapshot →
       consensusStates (store ctx') !! key = Some snapshot)
  ∧ (∀ misbehaviour ctx ctx' r,
       CheckMisbehaviourAndUpdateState misbehaviour ctx = (ctx', r) →
       consensusStates (store ctx') = consensusStates (store ctx))
  ∧ (∀ clientID header ctx ctx' r key,
       UpdateClient clientID header ctx = (ctx', r) →
       key ≠ (clientID, Header_GetHeight header) →
       consensusStates (store ctx') !! key = consensusStates (store ctx) !! key)
  ∧ (∀ clientID header ctx ctx',
       UpdateClient clientID header ctx = (ctx', Ok ()) →
       ∃ clientState clientState' consensusState,
         clientStates (store ctx) !! clientID = Some clientState
         ∧ tendermint_CheckValidityAndUpdateState clientState header (ChainID ctx)
             = inl (clientState', consensusState)
         ∧ consensusStates (store ctx') !! (clientID, Header_GetHeight header)
             = Some consensusState).
Proof.
  intros Hinit.
  assert (Hcreate : ∀ clientID clientType consensusState ctx ctx' r key snapshot,
       CreateClient clientID clientType consensusState ctx = (ctx', r) →
       consensusStates (store ctx) !! key = Some snapshot →
       consensusStates (store ctx') !! key = Some snapshot).
  { intros id t c ctx ctx' r key snap. rewrite CreateClient_cases.
    destruct (clientStates (store ctx) !! id); [intros [= <- _]; auto|].
    destruct (clientTypes (store ctx) !! id); [intros [= <- _]; auto|].
    destruct (initialize id t c ctx) as [ctx1 r1] eqn:Hi.
    intros H Hkey. pose proof (Hinit _ _ _ _ _ _ _ _ Hi Hkey) as H1.
    destruct r1; injection H as <- _; exact H1. }
  assert (Hmis : ∀ misbehaviour ctx ctx' r,
       CheckMisbehaviourAndUpdateState misbehaviour ctx = (ctx', r) →
       consensusStates (store ctx') = consensusStates (store ctx)).
  { intros m ctx ctx' r. rewrite CheckMisbehaviourAndUpdateState_cases.
    repeat case_match; intros [= <- _]; reflexivity. }
  assert (Hupd : ∀ clientID header ctx ctx' r key,
       UpdateClient clientID header ctx = (ctx', r) →
       key ≠ (clientID, Header_GetHeight header) →
       consensusStates (store ctx') !! key = consensusStates (store ctx) !! key).
  { intros id h ctx ctx' r key. rewrite UpdateClient_cases.
    repeat case_match; intros [= <- _] Hne; try reflexivity.
    simpl. apply lookup_insert_ne. congruence. }
  assert (Hwrite : ∀ clientID header ctx ctx',
       UpdateClient clientID header ctx = (ctx', Ok ()) →
       ∃ clientState clientState' consensusState,
         clientStates (store ctx) !! clientID = Some clientState
         ∧ tendermint_CheckValidityAndUpdateState clientState header (ChainID ctx)
             = inl (clientState', consensusState)
         ∧ consensusStates (store ctx') !! (clientID, Header_GetHeight header)
             = Some consensusState).
  { intros id h ctx ctx' Hok.
    destruct (UpdateClient_ok _ _ _ _ Hok)
      as (cs & cs' & cons & _ & _ & Hcs & _ & Hv & ->).
    exists cs, cs', cons. repeat split; try assumption.
    simpl. apply lookup_insert_eq. }
  repeat split; try assumption.
  intros ctx ctx' key snap Hstep Hkey.
  destruct Hstep as [id t c cs H|id t c e H|id h r H|m r H].
  - rewrite (Hcreate _ _ _ _ _ _ _ _ H Hkey). eauto.
  - rewrite (Hcreate _ _ _ _ _ _ _ _ H Hkey). eauto.
  - destruct (decide (key = (id, Header_GetHeight h))) as [->|Hne].
    + destruct r as [[]|e|msg].
      * destruct (Hwrite _ _ _ _ H) as (? & ? & cons & _ & _ & ->). eauto.
      * apply UpdateClient_error in H. subst. eauto.
      * exfalso. exact (UpdateClient_never_panics _ _ _ _ _ _ H).
    + rewrite (Hupd _ _ _ _ _ _ H Hne), Hkey. eauto.
  - rewrite (Hmis _ _ _ _ H), Hkey. eauto.
Qed.

End History.

(** ** The scenario, run *)

Section ScenarioRuns.

Import Scenario.

Local Ltac run := vm_compute; reflexivity.

Lemma scenario_create :
  create "chainA" Tendermint snapshot0 hub = (ctx_created, Ok state_created).
Proof. run. Qed.

Lemma scenario_update :
  update "chainA" header20 ctx_created = (ctx_updated, Ok ()).
Proof. run. Qed.

Lemma scenario_fork :
  update "chainA" fork20 ctx_updated = (ctx_forked, Ok ()).
Proof. run. Qed.

Lemma scenario_freeze :
  check evidence20 ctx_updated = (ctx_frozen, Ok ()).
Proof. run. Qed.

Lemma scenario_reachable :
  reachable (SpecVerifier.initialize 10) SpecVerifier.CheckValidityAndUpdateState
    SpecVerifier.CheckMisbehaviourAndUpdateState ctx_frozen.
Proof.
  eapply reachable_step; [|exact (step_misbehaviour _ _ _ _ _ _ _ scenario_freeze)].
  eapply reachable_step; [|exact (step_update _ _ _ _ _ _ _ _ scenario_update)].
  eapply reachable_step; [|exact (step_create _ _ _ _ _ _ _ _ _ scenario_create)].
  apply reachable_new.
Qed.

Lemma scenario_keyed : keyed_by_identifier ctx_updated.
Proof.
  intros id cs. change (clientStates (store ctx_updated))
    with (<[GetID state_updated := state_updated]>
            (clientStates (store ctx_created))).
  change (clientStates (store ctx_created))
    with (<[GetID state_created := state_created]> (∅ : gmap string ClientState)).
  intros H. apply lookup_insert_Some in H as [[<- <-]|[_ H]]; [reflexivity|].
  apply lookup_insert_Some in H as [[<- <-]|[_ H]]; [reflexivity|].
  rewrite lookup_empty in H. discriminate.
Qed.

(** C1, a counterexample.  The client "chainA" is frozen and its consensus
    type is Tendermint; a header that claims another type is refused with
    [ErrInvalidConsensus], not with [ErrClientFrozen]. *)
Lemma frozen_client_foreign_header :
  clientStates (store ctx_frozen) !! "chainA" = Some state_frozen
  ∧ IsFrozen state_frozen = true
  ∧ update "chainA" foreign30 ctx_frozen
      = (ctx_frozen,
         Err (Wrap ErrInvalidConsensus "cannot update client with ID chainA"))
  ∧ ∀ description,
      (update "chainA" foreign30 ctx_frozen).2
        ≠ Err (Wrap ErrClientFrozen description).
Proof.
  split; [run|]. split; [reflexivity|]. split; [run|].
  intros description. vm_compute. discriminate.
Qed.

Lemma UpdateClient_frozen_witness :
  clientStates (store ctx_frozen) !! "chainA" = Some state_frozen
  ∧ IsFrozen state_frozen = true
  ∧ update "chainA" header30 ctx_frozen
      = (ctx_frozen,
         Err (Wrap ErrClientFrozen "cannot update client with ID chainA"))
  ∧ update "chainA" foreign30 ctx_frozen
      = (ctx_frozen,
         Err (Wrap ErrInvalidConsensus "cannot update client with ID chainA")).
Proof.
  assert (Hs : clientStates (store ctx_frozen) !! "chainA" = Some state_frozen)
    by run.
  split; [exact Hs|]. split; [reflexivity|]. split.
  - exact (UpdateClient_frozen SpecVerifier.CheckValidityAndUpdateState
             "chainA" header30 ctx_frozen state_frozen Hs eq_refl).
  - exact (UpdateClient_frozen SpecVerifier.CheckValidityAndUpdateState
             "chainA" foreign30 ctx_frozen state_frozen Hs eq_refl).
Defined.

Lemma latest_height_never_decreases_witness :
  update_stays_active SpecVerifier.CheckValidityAndUpdateState
  ∧ clientStates (store ctx_created) !! "chainA" = Some state_created
  ∧ (∃ ctxs,
       updateAll "chainA" [header20; fork20; header30] ctx_created = Some ctxs
       ∧ ∃ heights,
           (λ c, latestHeightOf c "chainA") <$> ctxs = Some <$> heights
           ∧ StronglySorted Z.le (10 :: heights)
           ∧ Forall (λ c, frozenOf c "chainA" = Some false) ctxs
           ∧ ([header20; fork20; header30] ≠ [] → IsFrozen state_created = false)
           ∧ length ctxs = 3%nat).
Proof.
  assert (Hs : clientStates (store ctx_created) !! "chainA" = Some state_created)
    by run.
  split; [exact SpecVerifier_update_stays_active|]. split; [exact Hs|].
  destruct (updateAll "chainA" [header20; fork20; header30] ctx_created)
    as [ctxs|] eqn:Hrun; [|vm_compute in Hrun; discriminate].
  exists ctxs. split; [reflexivity|].
  exact (latest_height_never_decreases SpecVerifier.CheckValidityAndUpdateState
           "chainA" [header20; fork20; header30] ctx_created ctxs state_created
           SpecVerifier_update_stays_active Hs Hrun).
Defined.

Lemma misbehaviour_freezes_client_witness :
  misbehaviour_freezes SpecVerifier.CheckMisbehaviourAndUpdateState
  ∧ misbehaviour_keeps_identifier SpecVerifier.CheckMisbehaviourAndUpdateState
  ∧ keyed_by_identifier ctx_updated
  ∧ clientStates (store ctx_updated) !! "chainA" = Some state_updated
  ∧ consensusStates (store ctx_updated) !! ("chainA", uint64 20)
      = Some (mkConsensusState "root20" "validators")
  ∧ SpecVerifier.CheckMisbehaviourAndUpdateState state_updated
      (mkConsensusState "root20" "validators") evidence20 (uint64 20)
      = inl state_frozen
  ∧ ∃ ctx',
      check evidence20 ctx_updated = (ctx', Ok ())
      ∧ clientStates (store ctx') !! "chainA" = Some state_frozen
      ∧ IsFrozen state_frozen = true
      ∧ FrozenHeight state_frozen = uint64 20
      ∧ (0 ≤ 20 < 2 ^ 64 → FrozenHeight state_frozen = 20)
      ∧ GetLatestHeight state_frozen = GetLatestHeight state_updated
      ∧ consensusStates (store ctx') = consensusStates (store ctx_updated).
Proof.
  assert (Hs : clientStates (store ctx_updated) !! "chainA" = Some state_updated)
    by run.
  assert (Hc : consensusStates (store ctx_updated) !! ("chainA", uint64 20)
               = Some (mkConsensusState "root20" "validators")) by run.
  assert (Hv : SpecVerifier.CheckMisbehaviourAndUpdateState state_updated
                 (mkConsensusState "root20" "validators") evidence20 (uint64 20)
               = inl state_frozen) by run.
  split; [exact SpecVerifier_misbehaviour_freezes|].
  split; [exact SpecVerifier_misbehaviour_keeps_identifier|].
  split; [exact scenario_keyed|].
  split; [exact Hs|]. split; [exact Hc|]. split; [exact Hv|].
  exact (misbehaviour_freezes_client
           SpecVerifier.CheckMisbehaviourAndUpdateState
           (mkEvidenceData "chainA" 20 Tendermint header20 fork20)
           ctx_updated state_updated (mkConsensusState "root20" "validators")
           state_frozen
           SpecVerifier_misbehaviour_freezes
           SpecVerifier_misbehaviour_keeps_identifier
           scenario_keyed Hs Hc Hv).
Defined.

Lemma failed_operation_writes_nothing_witness :
  initialize_aborts_cleanly (SpecVerifier.initialize 10)
  ∧ (∀ ctx' e,
       create "chainC" (Unsupported 3) snapshot0 ctx_created = (ctx', Err e) →
       store ctx' = store ctx_created)
  ∧ (∀ ctx' e,
       update "chainA" header30 ctx_frozen = (ctx', Err e) →
       ctx' = ctx_frozen
       ∧ GetClientState "chainA" ctx' = GetClientState "chainA" ctx_frozen)
  ∧ check no_fork20 ctx_updated
      = (ctx_updated, Err (ErrVerifier "evidence does not prove misbehaviour")).
Proof.
  destruct (failed_operation_writes_nothing (SpecVerifier.initialize 10)
              SpecVerifier.CheckValidityAndUpdateState
              SpecVerifier.CheckMisbehaviourAndUpdateState
              (SpecVerifier_initialize_aborts_cleanly 10))
    as (Hcreate & Hupdate & _ & Hreject).
  split; [exact (SpecVerifier_initialize_aborts_cleanly 10)|].
  split; [exact (Hcreate "chainC" (Unsupported 3) snapshot0 ctx_created)|].
  split; [exact (Hupdate "chainA" header30 ctx_frozen)|].
  exact (Hreject no_fork20 ctx_updated state_updated
           (mkConsensusState "root20" "validators")
           (ErrVerifier "evidence does not prove misbehaviour")
           ltac:(run) ltac:(run) ltac:(run)).
Defined.

(** C5, a counterexample.  The store holds a consensus type for "chainB" and
    no client state; [UpdateClient] returns [ErrClientNotFound], an error
    like any other, and does not panic.  Where the store holds a client
    state and no consensus type, it returns [ErrClientTypeNotFound]. *)
Lemma corrupted_store_update_returns :
  clientTypes (store ctx_type_only) !! "chainB" = Some Tendermint
  ∧ clientStates (store ctx_type_only) !! "chainB" = None
  ∧ update "chainB" header30 ctx_type_only
      = (ctx_type_only,
         Err (Wrap ErrClientNotFound "cannot update client with ID chainB"))
  ∧ clientStates (store ctx_state_only) !! "chainA" = Some state_created
  ∧ clientTypes (store ctx_state_only) !! "chainA" = None
  ∧ update "chainA" header30 ctx_state_only
      = (ctx_state_only,
         Err (Wrap ErrClientTypeNotFound "cannot update client with ID chainA")).
Proof. repeat split; run. Qed.

Lemma store_corruption_handling_witness :
  is_Some (clientTypes (store ctx_type_only) !! "chainB")
  ∧ clientStates (store ctx_type_only) !! "chainB" = None
  ∧ create "chainB" Tendermint snapshot0 ctx_type_only
      = (ctx_type_only, Panic "client type is already defined for client chainB")
  ∧ reachable (SpecVerifier.initialize 10) SpecVerifier.CheckValidityAndUpdateState
      SpecVerifier.CheckMisbehaviourAndUpdateState ctx_frozen
  ∧ ¬ corrupted_at ctx_frozen "chainA".
Proof.
  destruct (store_corruption_handling (SpecVerifier.initialize 10)
              SpecVerifier.CheckValidityAndUpdateState
              SpecVerifier.CheckMisbehaviourAndUpdateState)
    as (Hpanic & _ & _ & _ & Hreach).
  assert (Ht : is_Some (clientTypes (store ctx_type_only) !! "chainB")).
  { exists Tendermint. run. }
  assert (Hs : clientStates (store ctx_type_only) !! "chainB" = None) by run.
  split; [exact Ht|]. split; [exact Hs|].
  split; [exact (Hpanic "chainB" Tendermint snapshot0 ctx_type_only Ht Hs)|].
  split; [exact scenario_reachable|].
  exact (Hreach (SpecVerifier_initialize_aborts_cleanly 10)
           (SpecVerifier_initialize_keeps_identifier 10)
           (SpecVerifier_initialize_leaves_clients 10)
           SpecVerifier_update_keeps_identifier
           SpecVerifier_misbehaviour_keeps_identifier
           ctx_frozen "chainA" scenario_reachable).
Defined.

(** C6, a counterexample.  Evidence of a type the keeper does not know, which
    claims a consensus type other than the stored Tendermint, is refused
    with [ErrUnknownRequest], not with [ErrInvalidConsensus]; and with the
    stored consensus type replaced by another one, Tendermint evidence of
    the fork is accepted and freezes the client. *)
Lemma misbehaviour_ignores_stored_type :
  (clientTypes (store ctx_updated) !! "chainA" = Some Tendermint
   ∧ Misbehaviour_ClientType mock_evidence20 = Unsupported 2
   ∧ check mock_evidence20 ctx_updated
       = (ctx_updated,
          Err (Wrap ErrUnknownRequest
                 "unrecognized IBC client evidence type: mock.Evidence")))
  ∧ (clientTypes (store ctx_retagged) !! "chainA" = Some (Unsupported 2)
     ∧ Misbehaviour_ClientType evidence20 = Tendermint
     ∧ (check evidence20 ctx_retagged).2 = Ok ()
     ∧ clientStates (store (check evidence20 ctx_retagged).1) !! "chainA"
         = Some state_frozen).
Proof. repeat split; run. Qed.

Lemma type_mismatch_handling_witness :
  clientTypes (store ctx_updated) !! "chainA" = Some Tendermint
  ∧ Header_ClientType foreign30 ≠ Tendermint
  ∧ update "chainA" foreign30 ctx_updated
      = (ctx_updated,
         Err (Wrap ErrInvalidConsensus "cannot update client with ID chainA")).
Proof.
  destruct (type_mismatch_handling SpecVerifier.CheckValidityAndUpdateState
              SpecVerifier.CheckMisbehaviourAndUpdateState) as (Hupdate & _ & _).
  assert (Ht : clientTypes (store ctx_updated) !! "chainA" = Some Tendermint)
    by run.
  assert (Hne : Header_ClientType foreign30 ≠ Tendermint) by discriminate.
  split; [exact Ht|]. split; [exact Hne|].
  exact (Hupdate "chainA" foreign30 ctx_updated Tendermint Ht Hne).
Defined.

(** C7, a counterexample.  The client is created, updated with a header for
    height 20, and updated again with a second header for height 20 that
    the verifier accepts: the consensus state stored at height 20 by the
    first update is replaced by the second.  And where the store holds a
    consensus state above the client's latest height, an update to that
    height, with a header higher than any the client has seen, replaces it
    as well. *)
Lemma update_replaces_snapshot :
  (create "chainA" Tendermint snapshot0 hub = (ctx_created, Ok state_created)
   ∧ update "chainA" header20 ctx_created = (ctx_updated, Ok ())
   ∧ consensusStates (store ctx_updated) !! ("chainA", 20)
       = Some (mkConsensusState "root20" "validators")
   ∧ update "chainA" fork20 ctx_updated = (ctx_forked, Ok ())
   ∧ consensusStates (store ctx_forked) !! ("chainA", 20)
       = Some (mkConsensusState "fork20" "validators"))
  ∧ (latestHeightOf ctx_ahead "chainA" = Some 20
     ∧ consensusStates (store ctx_ahead) !! ("chainA", 30)
         = Some (mkConsensusState "ahead30" "validators")
     ∧ (update "chainA" header30 ctx_ahead).2 = Ok ()
     ∧ consensusStates (store (update "chainA" header30 ctx_ahead).1) !! ("chainA", 30)
         = Some (mkConsensusState "root30" "validators")).
Proof. repeat split; run. Qed.

Lemma snapshots_kept_except_at_update_witness :
  initialize_keeps_snapshots (SpecVerifier.initialize 10)
  ∧ consensusStates (store (check evidence20 ctx_updated).1)
      = consensusStates (store ctx_updated)
  ∧ (("chainA", 20) ≠ ("chainA", Header_GetHeight header30) →
     consensusStates (store (update "chainA" header30 ctx_updated).1) !! ("chainA", 20)
       = consensusStates (store ctx_updated) !! ("chainA", 20))
  ∧ is_Some (consensusStates (store ctx_forked) !! ("chainA", 20)).
Proof.
  destruct (snapshots_kept_except_at_update (SpecVerifier.initialize 10)
              SpecVerifier.CheckValidityAndUpdateState
              SpecVerifier.CheckMisbehaviourAndUpdateState
              (SpecVerifier_initialize_keeps_snapshots 10))
    as (Hstep & _ & Hcheck & Hupdate & _).
  split; [exact (SpecVerifier_initialize_keeps_snapshots 10)|].
  split; [exact (Hcheck evidence20 ctx_updated _ _ (surjective_pairing _))|].
  split.
  - intros Hne.
    exact (Hupdate "chainA" header30 ctx_updated _ _ ("chainA", 20)
             (surjective_pairing _) Hne).
  - apply (Hstep ctx_updated ctx_forked ("chainA", 20)
             (mkConsensusState "root20" "validators")).
    + exact (step_update _ _ _ _ _ _ _ _ scenario_fork).
    + run.
Defined.

(** C8, a counterexample.  The consensus type stored for "chainA" has no
    verifier; a Tendermint header is refused with [ErrInvalidConsensus],
    not with [ErrInvalidClientType]. *)
Lemma unsupported_type_foreign_header :
  clientTypes (store ctx_retagged) !! "chainA" = Some (Unsupported 2)
  ∧ update "chainA" header30 ctx_retagged
      = (ctx_retagged,
         Err (Wrap ErrInvalidConsensus "cannot update client with ID chainA"))
  ∧ ∀ description,
      (update "chainA" header30 ctx_retagged).2
        ≠ Err (Wrap ErrInvalidClientType description).
Proof.
  split; [run|]. split; [run|]. intros description. vm_compute. discriminate.
Qed.

Lemma UpdateClient_unsupported_witness :
  clientTypes (store ctx_retagged) !! "chainA" = Some (Unsupported 2)
  ∧ update "chainA" foreign30 ctx_retagged
      = (ctx_retagged,
         Err (Wrap ErrInvalidClientType "cannot update client with ID chainA"))
  ∧ update "chainA" header30 ctx_retagged
      = (ctx_retagged,
         Err (Wrap ErrInvalidConsensus "cannot update client with ID chainA")).
Proof.
  assert (Ht : clientTypes (store ctx_retagged) !! "chainA" = Some (Unsupported 2))
    by run.
  split; [exact Ht|]. split.
  - exact (UpdateClient_unsupported SpecVerifier.CheckValidityAndUpdateState
             "chainA" foreign30 ctx_retagged 2%N Ht).
  - exact (UpdateClient_unsupported SpecVerifier.CheckValidityAndUpdateState
             "chainA" header30 ctx_retagged 2%N Ht).
Defined.

Lemma CreateClient_twice_witness :
  initialize_keeps_identifier (SpecVerifier.initialize 10)
  ∧ create "chainA" Tendermint snapshot0 hub = (ctx_created, Ok state_created)
  ∧ clientStates (store ctx_created) !! "chainA" = Some state_created
  ∧ create "chainA" Tendermint (mkConsensusState "other" "validators") ctx_created
      = (ctx_created,
         Err (Wrap ErrClientExists "cannot create client with ID chainA")).
Proof.
  destruct (CreateClient_twice (SpecVerifier.initialize 10)
              "chainA" Tendermint snapshot0 hub ctx_created state_created
              (SpecVerifier_initialize_keeps_identifier 10) scenario_create)
    as (Hstored & Hsecond).
  split; [exact (SpecVerifier_initialize_keeps_identifier 10)|].
  split; [exact scenario_create|]. split; [exact Hstored|].
  exact (Hsecond Tendermint (mkConsensusState "other" "validators")).
Defined.

Lemma misbehaviour_on_frozen_client_witness :
  clientStates (store ctx_frozen) !! "chainA" = Some state_frozen
  ∧ consensusStates (store ctx_frozen) !! ("chainA", uint64 20)
      = Some (mkConsensusState "root20" "validators")
  ∧ IsFrozen state_frozen = true
  ∧ ∃ ctx',
      check evidence20 ctx_frozen = (ctx', Ok ())
      ∧ clientStates (store ctx') !! "chainA" = Some state_frozen.
Proof.
  assert (Hs : clientStates (store ctx_frozen) !! "chainA" = Some state_frozen)
    by run.
  assert (Hc : consensusStates (store ctx_frozen) !! ("chainA", uint64 20)
               = Some (mkConsensusState "root20" "validators")) by run.
  split; [exact Hs|]. split; [exact Hc|]. split; [reflexivity|].
  destruct (misbehaviour_on_frozen_client
              SpecVerifier.CheckMisbehaviourAndUpdateState
              evidence20 ctx_frozen state_frozen
              (mkConsensusState "root20" "validators") Hs Hc) as [_ Hfrozen].
  destruct (Hfrozen (mkEvidenceData "chainA" 20 Tendermint header20 fork20)
              state_frozen eq_refl eq_refl ltac:(run))
    as (ctx' & Hok & Hstored & _).
  exists ctx'. split; [exact Hok|exact Hstored].
Defined.

End ScenarioRuns.

(** ** Further properties of the keeper *)

Lemma SpecVerifier_initialize_writes_own_snapshots h :
  initialize_writes_own_snapshots (SpecVerifier.initialize h).
Proof.
  intros id t c ctx ctx' cs id' height snap. unfold SpecVerifier.initialize.
  destruct t; cbv -[lookup]; intros [= <- _]; auto.
Qed.

Section Calls.

Variable initialize :
  string → ClientType → ConsensusState → K ClientState.
Variable tendermint_CheckValidityAndUpdateState :
  ClientState → Header → string → (ClientState * ConsensusState) + error.
Variable tendermint_CheckMisbehaviourAndUpdateState :
  ClientState → ConsensusState → Misbehaviour → Z → ClientState + error.

Local Abbreviation CreateClient := (CreateClient initialize).
Local Abbreviation UpdateClient := (UpdateClient tendermint_CheckValidityAndUpdateState).
Local Abbreviation CheckMisbehaviourAndUpdateState :=
  (CheckMisbehaviourAndUpdateState tendermint_CheckMisbehaviourAndUpdateState).
Local Abbreviation step :=
  (step initialize tendermint_CheckValidityAndUpdateState
     tendermint_CheckMisbehaviourAndUpdateState).
Local Abbreviation reachable :=
  (reachable initialize tendermint_CheckValidityAndUpdateState
     tendermint_CheckMisbehaviourAndUpdateState).

(** What a successful check of misbehaviour says of what it read and
    stores. *)
Lemma CheckMisbehaviourAndUpdateState_ok misbehaviour ctx ctx' :
  CheckMisbehaviourAndUpdateState misbehaviour ctx = (ctx', Ok ()) →
  ∃ e clientState consensusState clientState',
    misbehaviour = TendermintEvidence e
    ∧ clientStates (store ctx) !! Misbehaviour_GetClientID misbehaviour
        = Some clientState
    ∧ consensusStates (store ctx)
        !! (Misbehaviour_GetClientID misbehaviour,
            uint64 (Misbehaviour_GetHeight misbehaviour)) = Some consensusState
    ∧ tendermint_CheckMisbehaviourAndUpdateState clientState consensusState
        misbehaviour (uint64 (Misbehaviour_GetHeight misbehaviour))
        = inl clientState'
    ∧ ctx' = frozen_by ctx misbehaviour clientState'.
Proof.
  rewrite CheckMisbehaviourAndUpdateState_cases.
  destruct (clientStates (store ctx) !! Misbehaviour_GetClientID misbehaviour)
    as [cs|]; [|discriminate].
  destruct (consensusStates (store ctx) !! _) as [cons|]; [|discriminate].
  destruct misbehaviour as [e|ty e]; [|discriminate].
  destruct (tendermint_CheckMisbehaviourAndUpdateState _ _ _ _)
    as [cs'|err] eqn:Hv; [|discriminate].
  intros [= <-]. exists e, cs, cons, cs'. repeat split; assumption.
Qed.

(** What a successful creation says of the store it found and leaves. *)
Lemma CreateClient_ok clientID clientType consensusState ctx ctx' clientState :
  CreateClient clientID clientType consensusState ctx = (ctx', Ok clientState) →
  ∃ ctx1,
    clientStates (store ctx) !! clientID = None
    ∧ clientTypes (store ctx) !! clientID = None
    ∧ initialize clientID clientType consensusState ctx = (ctx1, Ok clientState)
    ∧ ctx' = created ctx1 clientID clientType clientState.
Proof.
  rewrite CreateClient_cases.
  destruct (clientStates (store ctx) !! clientID); [discriminate|].
  destruct (clientTypes (store ctx) !! clientID); [discriminate|].
  destruct (initialize clientID clientType consensusState ctx)
    as [ctx1 [cs|e|msg]] eqn:Hi; try discriminate.
  intros [= <- <-]. exists ctx1. repeat split.
Qed.

Lemma CreateClient_error_store clientID clientType consensusState ctx ctx' e :
  initialize_aborts_cleanly initialize →
  CreateClient clientID clientType consensusState ctx = (ctx', Err e) →
  store ctx' = store ctx.
Proof.
  intros Habort. rewrite CreateClient_cases.
  destruct (clientStates (store ctx) !! clientID); [intros [= <- _]; reflexivity|].
  destruct (clientTypes (store ctx) !! clientID); [discriminate|].
  destruct (initialize clientID clientType consensusState ctx)
    as [ctx1 [cs|e1|msg]] eqn:Hi; try discriminate.
  intros [= <- _]. exact (Habort _ _ _ _ _ _ Hi).
Qed.

(** An update of a frozen client returns an error and the context it was
    given. *)
Lemma UpdateClient_frozen_fails clientID header ctx clientState :
  clientStates (store ctx) !! clientID = Some clientState →
  IsFrozen clientState = true →
  ∃ e,
    UpdateClient clientID header ctx = (ctx, Err e)
    ∧ (Cause e = ErrClientFrozen ∨ Cause e = ErrInvalidConsensus
       ∨ Cause e = ErrClientTypeNotFound).
Proof.
  intros Hs Hf. rewrite UpdateClient_cases, Hs, Hf.
  repeat case_match; eexists; (split; [reflexivity|]); simpl; auto.
Qed.

(** X1.  Every error [CreateClient] and [UpdateClient] return is wrapped with
    a description that names the client: "cannot create client with ID" and
    "cannot update client with ID" followed by the identifier.
    [CheckMisbehaviourAndUpdateState] wraps its own three errors, with the
    identifier or with the type of the evidence, and returns any other error
    bare: that one is the verifier's, for evidence of the Tendermint type
    and the client state and consensus state found in the store. *)
Theorem errors_name_the_client :
  (∀ clientID clientType consensusState ctx ctx' e,
     CreateClient clientID clientType consensusState ctx = (ctx', Err e) →
     ∃ cause, e = Wrap cause (create_description clientID))
  ∧ (∀ clientID header ctx ctx' e,
       UpdateClient clientID header ctx = (ctx', Err e) →
       ∃ cause, e = Wrap cause (update_description clientID))
  ∧ (∀ misbehaviour ctx ctx' e,
       CheckMisbehaviourAndUpdateState misbehaviour ctx = (ctx', Err e) →
       e = Wrap ErrClientNotFound (Misbehaviour_GetClientID misbehaviour)
       ∨ e = Wrap ErrConsensusStateNotFound (Misbehaviour_GetClientID misbehaviour)
       ∨ (∃ goType ev,
            misbehaviour = OtherEvidence goType ev
            ∧ e = Wrap ErrUnknownRequest
                    ("unrecognized IBC client evidence type: " +:+ goType))
       ∨ (∃ ev clientState consensusState,
            misbehaviour = TendermintEvidence ev
            ∧ clientStates (store ctx) !! Misbehaviour_GetClientID misbehaviour
                = Some clientState
            ∧ consensusStates (store ctx)
                !! (Misbehaviour_GetClientID misbehaviour,
                    uint64 (Misbehaviour_GetHeight misbehaviour))
                = Some consensusState
            ∧ tendermint_CheckMisbehaviourAndUpdateState clientState
                consensusState misbehaviour
                (uint64 (Misbehaviour_GetHeight misbehaviour)) = inr e)).
Proof.
  split; [|split].
  - intros id t c ctx ctx' e. rewrite CreateClient_cases.
    destruct (clientStates (store ctx) !! id); [intros [= _ <-]; eauto|].
    destruct (clientTypes (store ctx) !! id); [discriminate|].
    destruct (initialize id t c ctx) as [ctx1 [cs|e1|msg]]; try discriminate.
    intros [= _ <-]. eauto.
  - intros id h ctx ctx' e. rewrite UpdateClient_cases.
    repeat (case_match; try discriminate); intros [= _ <-]; eauto.
  - intros m ctx ctx' e. rewrite CheckMisbehaviourAndUpdateState_cases.
    destruct (clientStates (store ctx) !! Misbehaviour_GetClientID m)
      as [cs|] eqn:Hs; [|intros [= _ <-]; auto].
    destruct (consensusStates (store ctx) !! _) as [cons|] eqn:Hc;
      [|intros [= _ <-]; auto].
    destruct m as [ev|ty ev].
    + destruct (tendermint_CheckMisbehaviourAndUpdateState _ _ _ _)
        as [cs'|err] eqn:Hv; [discriminate|].
      intros [= _ <-]. right. right. right. exists ev, cs, cons. auto.
    + intros [= _ <-]. right. right. left. eauto.
Qed.

(** X2.  [UpdateClient] and [CheckMisbehaviourAndUpdateState] emit events and
    write to the log when they succeed and only then.  A successful update
    appends the update event with the client's identifier, then the message
    event, and one log line with the identifier and the header's height; a
    successful check of misbehaviour appends one event with the identifier
    and the consensus type the evidence claims, and one log line.  Neither
    call changes the chain identifier. *)
Theorem events_on_success_only :
  (∀ clientID header ctx ctx' r,
     UpdateClient clientID header ctx = (ctx', r) →
     ChainID ctx' = ChainID ctx
     ∧ ((r = Ok ()
         ∧ events ctx' = events ctx ++ update_events clientID
         ∧ logger ctx'
           = logger ctx ++
               ["client " +:+ clientID +:+ " updated to height "
                +:+ fmt_d (Header_GetHeight header)])
        ∨ ((∃ e, r = Err e) ∧ ctx' = ctx)))
  ∧ (∀ misbehaviour ctx ctx' r,
       CheckMisbehaviourAndUpdateState misbehaviour ctx = (ctx', r) →
       ChainID ctx' = ChainID ctx
       ∧ ((r = Ok ()
           ∧ events ctx' = events ctx ++ misbehaviour_events misbehaviour
           ∧ logger ctx'
             = logger ctx ++
                 ["client " +:+ Misbehaviour_GetClientID misbehaviour
                  +:+ " frozen due to misbehaviour"])
          ∨ ((∃ e, r = Err e) ∧ ctx' = ctx))).
Proof.
  split.
  - intros id h ctx ctx' r Hcall. destruct r as [[]|e|msg].
    + destruct (UpdateClient_ok _ _ _ _ _ Hcall) as (cs & cs' & cons & _ & _ & _ & _ & _ & ->).
      split; [reflexivity|]. left. repeat split.
    + apply UpdateClient_error in Hcall as ->. split; [reflexivity|]. right. eauto.
    + exfalso. exact (UpdateClient_never_panics _ _ _ _ _ _ Hcall).
  - intros m ctx ctx' r Hcall. destruct r as [[]|e|msg].
    + destruct (CheckMisbehaviourAndUpdateState_ok _ _ _ Hcall)
        as (ev & cs & cons & cs' & _ & _ & _ & _ & ->).
      split; [reflexivity|]. left. repeat split.
    + apply CheckMisbehaviourAndUpdateState_error in Hcall as ->.
      split; [reflexivity|]. right. eauto.
    + exfalso. exact (CheckMisbehaviourAndUpdateState_never_panics _ _ _ _ _ Hcall).
Qed.

End Calls.

(** ** Clients along any sequence of calls *)

Section Sequences.

Variable initialize :
  string → ClientType → ConsensusState → K ClientState.
Variable tendermint_CheckValidityAndUpdateState :
  ClientState → Header → string → (ClientState * ConsensusState) + error.
Variable tendermint_CheckMisbehaviourAndUpdateState :
  ClientState → ConsensusState → Misbehaviour → Z → ClientState + error.

Local Abbreviation CreateClient := (CreateClient initialize).
Local Abbreviation UpdateClient := (UpdateClient tendermint_CheckValidityAndUpdateState).
Local Abbreviation CheckMisbehaviourAndUpdateState :=
  (CheckMisbehaviourAndUpdateState tendermint_CheckMisbehaviourAndUpdateState).
Local Abbreviation step :=
  (step initialize tendermint_CheckValidityAndUpdateState
     tendermint_CheckMisbehaviourAndUpdateState).
Local Abbreviation reachable :=
  (reachable initialize tendermint_CheckValidityAndUpdateState
     tendermint_CheckMisbehaviourAndUpdateState).

(** A call either leaves the store as it was or is one of the three
    successful writes. *)
Lemma step_cases ctx ctx' :
  initialize_aborts_cleanly initialize →
  step ctx ctx' →
  store ctx' = store ctx
  ∨ (∃ clientID clientType consensusState clientState ctx1,
       clientStates (store ctx) !! clientID = None
       ∧ clientTypes (store ctx) !! clientID = None
       ∧ initialize clientID clientType consensusState ctx = (ctx1, Ok clientState)
       ∧ ctx' = created ctx1 clientID clientType clientState)
  ∨ (∃ clientID header clientState clientState' consensusState,
       clientStates (store ctx) !! clientID = Some clientState
       ∧ IsFrozen clientState = false
       ∧ tendermint_CheckValidityAndUpdateState clientState header (ChainID ctx)
           = inl (clientState', consensusState)
       ∧ ctx' = updated ctx clientID header clientState' consensusState)
  ∨ (∃ misbehaviour clientState consensusState clientState',
       clientStates (store ctx) !! Misbehaviour_GetClientID misbehaviour
         = Some clientState
       ∧ tendermint_CheckMisbehaviourAndUpdateState clientState consensusState
           misbehaviour (uint64 (Misbehaviour_GetHeight misbehaviour))
           = inl clientState'
       ∧ ctx' = frozen_by ctx misbehaviour clientState').
Proof.
  intros Habort [id t c cs H|id t c e H|id h r H|m r H].
  - destruct (CreateClient_ok _ _ _ _ _ _ _ H) as (ctx1 & Hs & Ht & Hi & ->).
    right. left. exists id, t, c, cs, ctx1. auto.
  - left. exact (CreateClient_error_store _ _ _ _ _ _ _ Habort H).
  - destruct r as [[]|e|msg].
    + destruct (UpdateClient_ok _ _ _ _ _ H)
        as (cs & cs' & cons & _ & _ & Hs & Hf & Hv & ->).
      right. right. left. exists id, h, cs, cs', cons. auto.
    + apply UpdateClient_error in H as ->. left. reflexivity.
    + exfalso. exact (UpdateClient_never_panics _ _ _ _ _ _ H).
  - destruct r as [[]|e|msg].
    + destruct (CheckMisbehaviourAndUpdateState_ok _ _ _ _ H)
        as (ev & cs & cons & cs' & _ & Hs & _ & Hv & ->).
      right. right. right. exists m, cs, cons, cs'. auto.
    + apply CheckMisbehaviourAndUpdateState_error in H as ->. left. reflexivity.
    + exfalso. exact (CheckMisbehaviourAndUpdateState_never_panics _ _ _ _ _ H).
Qed.

Lemma step_keeps_client ctx ctx' clientID :
  initialize_aborts_cleanly initialize →
  initialize_leaves_clients initialize →
  step ctx ctx' →
  (is_Some (clientStates (store ctx) !! clientID) →
   is_Some (clientStates (store ctx') !! clientID))
  ∧ (∀ clientType,
       clientTypes (store ctx) !! clientID = Some clientType →
       clientTypes (store ctx') !! clientID = Some clientType).
Proof.
  intros Habort Hleave Hstep.
  destruct (step_cases _ _ Habort Hstep)
    as [->|[(id & t & c & cs & ctx1 & Hs & Ht & Hi & ->)
       |[(id & h & cs & cs' & cons & Hs & _ & _ & ->)
        |(m & cs & cons & cs' & Hs & _ & ->)]]]; [split; auto| | |].
  - destruct (Hleave _ _ _ _ _ _ Hi) as [Hst Hty]. simpl. rewrite Hst, Hty. split.
    + intros Hsome. apply lookup_insert_is_Some'. right. exact Hsome.
    + intros ty Hlook. rewrite lookup_insert_ne; [exact Hlook|congruence].
  - simpl. split; [|auto]. intros Hsome.
    apply lookup_insert_is_Some'. right. exact Hsome.
  - simpl. split; [|auto]. intros Hsome.
    apply lookup_insert_is_Some'. right. exact Hsome.
Qed.

(** X3.  Along any sequence of calls of the keeper that return, a client
    never disappears and never changes its consensus type: the identifier
    keeps a client state, and the consensus type stored for it stays the one
    it was.  Only [CreateClient] writes a consensus type, and only for an
    identifier that has none.  This holds where [initialize] leaves the two
    maps to [CreateClient] and the store alone when it fails. *)
Theorem client_persists_with_its_type ctx ctx' clientID :
  initialize_aborts_cleanly initialize →
  initialize_leaves_clients initialize →
  rtc step ctx ctx' →
  (is_Some (clientStates (store ctx) !! clientID) →
   is_Some (clientStates (store ctx') !! clientID))
  ∧ (∀ clientType,
       clientTypes (store ctx) !! clientID = Some clientType →
       clientTypes (store ctx') !! clientID = Some clientType).
Proof using initialize tendermint_CheckValidityAndUpdateState
  tendermint_CheckMisbehaviourAndUpdateState.
  intros Habort Hleave Hsteps.
  induction Hsteps as [ctx|ctx ctx1 ctx2 Hstep _ IH]; [split; auto|].
  destruct (step_keeps_client _ _ clientID Habort Hleave Hstep) as [Hs Ht].
  destruct IH as [IHs IHt]. split; [auto|]. intros ty Hty. auto.
Qed.

(** What one call does to the state of a client: the latest height does not
    decrease and a frozen client stays frozen. *)
Lemma step_client_state ctx ctx' clientID clientState :
  initialize_aborts_cleanly initialize →
  initialize_keeps_identifier initialize →
  initialize_leaves_clients initialize →
  update_stays_active tendermint_CheckValidityAndUpdateState →
  update_keeps_identifier tendermint_CheckValidityAndUpdateState →
  misbehaviour_freezes tendermint_CheckMisbehaviourAndUpdateState →
  misbehaviour_keeps_identifier tendermint_CheckMisbehaviourAndUpdateState →
  keyed_by_identifier ctx →
  step ctx ctx' →
  clientStates (store ctx) !! clientID = Some clientState →
  ∃ clientState',
    clientStates (store ctx') !! clientID = Some clientState'
    ∧ GetLatestHeight clientState ≤ GetLatestHeight clientState'
    ∧ (IsFrozen clientState = true → IsFrozen clientState' = true).
Proof.
  intros Habort Hinit Hleave Hactive Hupd Hfreeze Hmis Hkey Hstep Hcs.
  destruct (step_cases _ _ Habort Hstep)
    as [Hsame|[(id & t & c & cs & ctx1 & Hs & Ht & Hi & ->)
       |[(id & h & cs & cs' & cons & Hs & Hf & Hv & ->)
        |(m & cs & cons & cs' & Hs & Hv & ->)]]].
  - exists clientState. rewrite Hsame. split; [exact Hcs|]. split; [reflexivity|auto].
  - exists clientState. destruct (Hleave _ _ _ _ _ _ Hi) as [Hst _].
    pose proof (Hinit _ _ _ _ _ _ Hi) as Hid. simpl. rewrite Hst, Hid.
    split; [|split; [reflexivity|auto]].
    rewrite lookup_insert_ne; [exact Hcs|congruence].
  - pose proof (Hupd _ _ _ _ _ Hv) as Hid. rewrite (Hkey _ _ Hs) in Hid.
    destruct (Hactive _ _ _ _ _ Hv Hf) as [Hle Hf'].
    simpl. rewrite Hid. destruct (decide (id = clientID)) as [->|Hne].
    + rewrite Hcs in Hs. injection Hs as <-. exists cs'.
      rewrite lookup_insert_eq. split; [reflexivity|]. split; [exact Hle|].
      rewrite Hf. discriminate.
    + exists clientState. rewrite lookup_insert_ne by assumption.
      split; [exact Hcs|]. split; [reflexivity|auto].
  - pose proof (Hmis _ _ _ _ _ Hv) as Hid. rewrite (Hkey _ _ Hs) in Hid.
    destruct (Hfreeze _ _ _ _ _ Hv) as (Hf' & _ & Hl).
    simpl. rewrite Hid.
    destruct (decide (Misbehaviour_GetClientID m = clientID)) as [Heq|Hne].
    + rewrite Heq in *. rewrite Hcs in Hs. injection Hs as <-. exists cs'.
      rewrite lookup_insert_eq. split; [reflexivity|]. split; [|auto].
      rewrite Hl. reflexivity.
    + exists clientState. rewrite lookup_insert_ne by assumption.
      split; [exact Hcs|]. split; [reflexivity|auto].
Qed.

Lemma steps_client_state ctx ctx' clientID clientState :
  initialize_aborts_cleanly initialize →
  initialize_keeps_identifier initialize →
  initialize_leaves_clients initialize →
  update_stays_active tendermint_CheckValidityAndUpdateState →
  update_keeps_identifier tendermint_CheckValidityAndUpdateState →
  misbehaviour_freezes tendermint_CheckMisbehaviourAndUpdateState →
  misbehaviour_keeps_identifier tendermint_CheckMisbehaviourAndUpdateState →
  consistent ctx →
  rtc step ctx ctx' →
  clientStates (store ctx) !! clientID = Some clientState →
  ∃ clientState',
    clientStates (store ctx') !! clientID = Some clientState'
    ∧ GetLatestHeight clientState ≤ GetLatestHeight clientState'
    ∧ (IsFrozen clientState = true → IsFrozen clientState' = true).
Proof.
  intros Habort Hinit Hleave Hactive Hupd Hfreeze Hmis Hc Hsteps.
  revert clientState Hc.
  induction Hsteps as [ctx|ctx ctx1 ctx2 Hstep _ IH]; intros cs Hc Hcs.
  - exists cs. split; [exact Hcs|]. split; [reflexivity|auto].
  - destruct (step_client_state _ _ _ _ Habort Hinit Hleave Hactive Hupd
                Hfreeze Hmis (proj1 Hc) Hstep Hcs) as (cs1 & Hcs1 & Hle1 & Hf1).
    pose proof (step_consistent _ _ _ _ _ Habort Hinit Hleave Hupd Hmis Hstep Hc)
      as Hc1.
    destruct (IH cs1 Hc1 Hcs1) as (cs2 & Hcs2 & Hle2 & Hf2).
    exists cs2. split; [exact Hcs2|]. split; [|auto].
    etransitivity; eassumption.
Qed.

(** X4.  Frozen is final.  Along any sequence of calls of the keeper, from a
    store where every client state is stored under its own identifier next
    to a consensus type, a client that is frozen stays frozen: no update
    reaches it, a further check of misbehaviour stores a frozen state again,
    and [CreateClient] cannot create it anew.  The verifier is one that
    freezes on misbehaviour and keeps the identifier of the state. *)
Theorem frozen_is_final ctx ctx' clientID clientState :
  initialize_aborts_cleanly initialize →
  initialize_keeps_identifier initialize →
  initialize_leaves_clients initialize →
  update_stays_active tendermint_CheckValidityAndUpdateState →
  update_keeps_identifier tendermint_CheckValidityAndUpdateState →
  misbehaviour_freezes tendermint_CheckMisbehaviourAndUpdateState →
  misbehaviour_keeps_identifier tendermint_CheckMisbehaviourAndUpdateState →
  consistent ctx →
  rtc step ctx ctx' →
  clientStates (store ctx) !! clientID = Some clientState →
  IsFrozen clientState = true →
  frozenOf ctx' clientID = Some true
  ∧ ∀ header, ∃ e, UpdateClient clientID header ctx' = (ctx', Err e).
Proof.
  intros Habort Hinit Hleave Hactive Hupd Hfreeze Hmis Hc Hsteps Hcs Hf.
  destruct (steps_client_state _ _ _ _ Habort Hinit Hleave Hactive Hupd
              Hfreeze Hmis Hc Hsteps Hcs) as (cs' & Hcs' & _ & Hf').
  split.
  - unfold frozenOf. rewrite Hcs'. simpl. f_equal. auto.
  - intros header.
    destruct (UpdateClient_frozen_fails tendermint_CheckValidityAndUpdateState
                clientID header ctx' cs' Hcs' (Hf' Hf)) as (e & He & _).
    exists e. exact He.
Qed.

(** X5.  Along any sequence of calls of the keeper, whichever clients they
    are for and whether they succeed or fail, the latest height of a client
    never decreases.  An update only raises it, a check of misbehaviour
    leaves it, and calls for other clients do not reach this one.  The store
    at the start holds every client state under its own identifier next to a
    consensus type, and the verifier does what the contracts say. *)
Theorem latest_height_never_decreases_across_calls ctx ctx' clientID height :
  initialize_aborts_cleanly initialize →
  initialize_keeps_identifier initialize →
  initialize_leaves_clients initialize →
  update_stays_active tendermint_CheckValidityAndUpdateState →
  update_keeps_identifier tendermint_CheckValidityAndUpdateState →
  misbehaviour_freezes tendermint_CheckMisbehaviourAndUpdateState →
  misbehaviour_keeps_identifier tendermint_CheckMisbehaviourAndUpdateState →
  consistent ctx →
  rtc step ctx ctx' →
  latestHeightOf ctx clientID = Some height →
  ∃ height', latestHeightOf ctx' clientID = Some height' ∧ height ≤ height'.
Proof.
  intros Habort Hinit Hleave Hactive Hupd Hfreeze Hmis Hc Hsteps.
  unfold latestHeightOf.
  destruct (clientStates (store ctx) !! clientID) as [cs|] eqn:Hcs; [|discriminate].
  simpl. intros [= <-].
  destruct (steps_client_state _ _ _ _ Habort Hinit Hleave Hactive Hupd
              Hfreeze Hmis Hc Hsteps Hcs) as (cs' & Hcs' & Hle & _).
  exists (GetLatestHeight cs'). rewrite Hcs'. split; [reflexivity|exact Hle].
Qed.

End Sequences.

(** ** One client at a time, and calls one after the other *)

Section Composition.

Variable initialize :
  string → ClientType → ConsensusState → K ClientState.
Variable tendermint_CheckValidityAndUpdateState :
  ClientState → Header → string → (ClientState * ConsensusState) + error.
Variable tendermint_CheckMisbehaviourAndUpdateState :
  ClientState → ConsensusState → Misbehaviour → Z → ClientState + error.

Local Abbreviation CreateClient := (CreateClient initialize).
Local Abbreviation UpdateClient := (UpdateClient tendermint_CheckValidityAndUpdateState).
Local Abbreviation CheckMisbehaviourAndUpdateState :=
  (CheckMisbehaviourAndUpdateState tendermint_CheckMisbehaviourAndUpdateState).
Local Abbreviation step :=
  (step initialize tendermint_CheckValidityAndUpdateState
     tendermint_CheckMisbehaviourAndUpdateState).
Local Abbreviation reachable :=
  (reachable initialize tendermint_CheckValidityAndUpdateState
     tendermint_CheckMisbehaviourAndUpdateState).

(** X6.  A call for one client does not reach another.  Where every client
    state is stored under its own identifier and the verifier keeps the
    identifier of the state, [UpdateClient] and
    [CheckMisbehaviourAndUpdateState] leave the client state, the consensus
    type and every consensus state of every other identifier as they were;
    and a successful [CreateClient], with an [initialize] that keeps the
    identifier and leaves the two maps alone, leaves the client state and
    the consensus type of every other identifier as they were. *)
Theorem calls_reach_one_client :
  initialize_keeps_identifier initialize →
  initialize_leaves_clients initialize →
  update_keeps_identifier tendermint_CheckValidityAndUpdateState →
  misbehaviour_keeps_identifier tendermint_CheckMisbehaviourAndUpdateState →
  (∀ clientID header ctx ctx' r other,
     keyed_by_identifier ctx →
     UpdateClient clientID header ctx = (ctx', r) →
     other ≠ clientID →
     clientStates (store ctx') !! other = clientStates (store ctx) !! other
     ∧ clientTypes (store ctx') !! other = clientTypes (store ctx) !! other
     ∧ ∀ height,
         consensusStates (store ctx') !! (other, height)
         = consensusStates (store ctx) !! (other, height))
  ∧ (∀ misbehaviour ctx ctx' r other,
       keyed_by_identifier ctx →
       CheckMisbehaviourAndUpdateState misbehaviour ctx = (ctx', r) →
       other ≠ Misbehaviour_GetClientID misbehaviour →
       clientStates (store ctx') !! other = clientStates (store ctx) !! other
       ∧ clientTypes (store ctx') !! other = clientTypes (store ctx) !! other
       ∧ ∀ height,
           consensusStates (store ctx') !! (other, height)
           = consensusStates (store ctx) !! (other, height))
  ∧ (∀ clientID clientType consensusState ctx ctx' clientState other,
       CreateClient clientID clientType consensusState ctx = (ctx', Ok clientState) →
       other ≠ clientID →
       clientStates (store ctx') !! other = clientStates (store ctx) !! other
       ∧ clientTypes (store ctx') !! other = clientTypes (store ctx) !! other).
Proof.
  intros Hinit Hleave Hupd Hmis. split; [|split].
  - intros id h ctx ctx' r other Hkey Hcall Hne. destruct r as [[]|e|msg].
    + destruct (UpdateClient_ok _ _ _ _ _ Hcall)
        as (cs & cs' & cons & _ & _ & Hs & _ & Hv & ->).
      pose proof (Hupd _ _ _ _ _ Hv) as Hid. rewrite (Hkey _ _ Hs) in Hid.
      simpl. rewrite Hid. split; [|split; [reflexivity|]].
      * apply lookup_insert_ne. congruence.
      * intros height. apply lookup_insert_ne. congruence.
    + apply UpdateClient_error in Hcall as ->. auto.
    + exfalso. exact (UpdateClient_never_panics _ _ _ _ _ _ Hcall).
  - intros m ctx ctx' r other Hkey Hcall Hne. destruct r as [[]|e|msg].
    + destruct (CheckMisbehaviourAndUpdateState_ok _ _ _ _ Hcall)
        as (ev & cs & cons & cs' & _ & Hs & _ & Hv & ->).
      pose proof (Hmis _ _ _ _ _ Hv) as Hid. rewrite (Hkey _ _ Hs) in Hid.
      simpl. rewrite Hid. split; [|split; [reflexivity|reflexivity]].
      apply lookup_insert_ne. congruence.
    + apply CheckMisbehaviourAndUpdateState_error in Hcall as ->. auto.
    + exfalso. exact (CheckMisbehaviourAndUpdateState_never_panics _ _ _ _ _ Hcall).
  - intros id t c ctx ctx' cs other Hcall Hne.
    destruct (CreateClient_ok _ _ _ _ _ _ _ Hcall) as (ctx1 & _ & _ & Hi & ->).
    destruct (Hleave _ _ _ _ _ _ Hi) as [Hst Hty].
    pose proof (Hinit _ _ _ _ _ _ Hi) as Hid.
    simpl. rewrite Hid, Hst, Hty. split; apply lookup_insert_ne; congruence.
Qed.

(** X7.  The height of evidence is signed and the keeper converts it with
    [uint64(...)]: a height of 0 or more is looked up as it is, a negative
    one as the height plus 2^64, which is 2^63 at least.  So evidence with a
    negative height, for a client whose consensus states are all below
    2^63, is refused with [ErrConsensusStateNotFound], the context
    unchanged and the verifier not asked. *)
Theorem negative_evidence_height misbehaviour ctx clientState :
  - 2 ^ 63 ≤ Misbehaviour_GetHeight misbehaviour < 0 →
  clientStates (store ctx) !! Misbehaviour_GetClientID misbehaviour
    = Some clientState →
  (∀ height snapshot,
     consensusStates (store ctx) !! (Misbehaviour_GetClientID misbehaviour, height)
       = Some snapshot →
     height < 2 ^ 63) →
  uint64 (Misbehaviour_GetHeight misbehaviour)
    = Misbehaviour_GetHeight misbehaviour + 2 ^ 64
  ∧ CheckMisbehaviourAndUpdateState misbehaviour ctx
    = (ctx, Err (Wrap ErrConsensusStateNotFound
                   (Misbehaviour_GetClientID misbehaviour))).
Proof.
  intros Hrange Hcs Hbelow.
  assert (Hconv : uint64 (Misbehaviour_GetHeight misbehaviour)
                  = Misbehaviour_GetHeight misbehaviour + 2 ^ 64).
  { unfold uint64. symmetry. apply Z.mod_unique_pos with (q := -1); lia. }
  split; [exact Hconv|].
  rewrite CheckMisbehaviourAndUpdateState_cases, Hcs.
  destruct (consensusStates (store ctx) !! _) as [snap|] eqn:Hsnap; [|reflexivity].
  apply Hbelow in Hsnap. lia.
Qed.

(** X8.  Freeze, then update.  Once [CheckMisbehaviourAndUpdateState] has
    succeeded, the client it names is frozen in the store, and every
    [UpdateClient] for that client fails and leaves the context as it is,
    whatever the header.  The client state was stored under its own
    identifier and the verifier is one that freezes and keeps the
    identifier. *)
Theorem freeze_then_update misbehaviour ctx ctx' :
  misbehaviour_freezes tendermint_CheckMisbehaviourAndUpdateState →
  misbehaviour_keeps_identifier tendermint_CheckMisbehaviourAndUpdateState →
  keyed_by_identifier ctx →
  CheckMisbehaviourAndUpdateState misbehaviour ctx = (ctx', Ok ()) →
  frozenOf ctx' (Misbehaviour_GetClientID misbehaviour) = Some true
  ∧ ∀ header,
      ∃ e,
        UpdateClient (Misbehaviour_GetClientID misbehaviour) header ctx'
          = (ctx', Err e)
        ∧ (Cause e = ErrClientFrozen ∨ Cause e = ErrInvalidConsensus
           ∨ Cause e = ErrClientTypeNotFound).
Proof.
  intros Hfreeze Hmis Hkey Hcall.
  destruct (CheckMisbehaviourAndUpdateState_ok _ _ _ _ Hcall)
    as (ev & cs & cons & cs' & _ & Hs & _ & Hv & ->).
  pose proof (Hmis _ _ _ _ _ Hv) as Hid. rewrite (Hkey _ _ Hs) in Hid.
  destruct (Hfreeze _ _ _ _ _ Hv) as (Hf & _ & _).
  assert (Hstored : clientStates (store (frozen_by ctx misbehaviour cs'))
                      !! Misbehaviour_GetClientID misbehaviour = Some cs').
  { simpl. rewrite Hid. apply lookup_insert_eq. }
  split.
  - unfold frozenOf. rewrite Hstored. simpl. f_equal. exact Hf.
  - intros header.
    exact (UpdateClient_frozen_fails tendermint_CheckValidityAndUpdateState
             _ header _ cs' Hstored Hf).
Qed.

(** X9.  Create, then update.  The update that follows a successful
    [CreateClient] finds the consensus type and the client state the
    creation stored: it checks the header's type against the type the client
    was created with, the frozen flag of the state [initialize] returned,
    and hands that state to the verifier; no [ErrClientTypeNotFound] or
    [ErrClientNotFound] can come.  [initialize] is one that returns the
    state of the identifier it was given. *)
Theorem create_then_update clientID clientType consensusState ctx ctx1 clientState header :
  initialize_keeps_identifier initialize →
  CreateClient clientID clientType consensusState ctx = (ctx1, Ok clientState) →
  UpdateClient clientID header ctx1 =
    if bool_decide (Header_ClientType header ≠ clientType) then
      (ctx1, Err (Wrap ErrInvalidConsensus (update_description clientID)))
    else if IsFrozen clientState then
      (ctx1, Err (Wrap ErrClientFrozen (update_description clientID)))
    else
      match clientType with
      | Tendermint =>
          match tendermint_CheckValidityAndUpdateState clientState header
                  (ChainID ctx1) with
          | inl (clientState', consensusState') =>
              (updated ctx1 clientID header clientState' consensusState', Ok ())
          | inr e => (ctx1, Err (Wrap e (update_description clientID)))
          end
      | Unsupported _ =>
          (ctx1, Err (Wrap ErrInvalidClientType (update_description clientID)))
      end.
Proof.
  intros Hinit Hcall.
  destruct (CreateClient_ok _ _ _ _ _ _ _ Hcall) as (ctx0 & _ & _ & Hi & ->).
  pose proof (Hinit _ _ _ _ _ _ Hi) as Hid.
  rewrite UpdateClient_cases. simpl.
  rewrite Hid, !lookup_insert_eq. reflexivity.
Qed.

(** X10.  Update, then check misbehaviour.  After a successful [UpdateClient]
    with a header, evidence for the same client at the header's height is
    checked against what that update stored: the client state and the
    consensus state the verifier returned for the header.  Neither
    [ErrClientNotFound] nor [ErrConsensusStateNotFound] can come, and the
    outcome is the verifier's.  The client state was stored under its own
    identifier and the verifier keeps it. *)
Theorem update_then_check_misbehaviour clientID header ctx ctx' misbehaviour :
  update_keeps_identifier tendermint_CheckValidityAndUpdateState →
  keyed_by_identifier ctx →
  UpdateClient clientID header ctx = (ctx', Ok ()) →
  Misbehaviour_GetClientID misbehaviour = clientID →
  uint64 (Misbehaviour_GetHeight misbehaviour) = Header_GetHeight header →
  ∃ clientState clientState' consensusState,
    clientStates (store ctx) !! clientID = Some clientState
    ∧ tendermint_CheckValidityAndUpdateState clientState header (ChainID ctx)
        = inl (clientState', consensusState)
    ∧ CheckMisbehaviourAndUpdateState misbehaviour ctx' =
        match misbehaviour with
        | TendermintEvidence _ =>
            match tendermint_CheckMisbehaviourAndUpdateState clientState'
                    consensusState misbehaviour (Header_GetHeight header) with
            | inl frozenState => (frozen_by ctx' misbehaviour frozenState, Ok ())
            | inr e => (ctx', Err e)
            end
        | OtherEvidence goType _ =>
            (ctx', Err (Wrap ErrUnknownRequest
                          ("unrecognized IBC client evidence type: " +:+ goType)))
        end.
Proof.
  intros Hupd Hkey Hcall Hclient Hheight.
  destruct (UpdateClient_ok _ _ _ _ _ Hcall)
    as (cs & cs' & cons & _ & _ & Hs & _ & Hv & ->).
  pose proof (Hupd _ _ _ _ _ Hv) as Hid. rewrite (Hkey _ _ Hs) in Hid.
  exists cs, cs', cons. split; [exact Hs|]. split; [exact Hv|].
  rewrite CheckMisbehaviourAndUpdateState_cases, Hclient, Hheight. simpl.
  rewrite Hid, !lookup_insert_eq. reflexivity.
Qed.

(** One call keeps every consensus state with a client. *)
Lemma step_snapshots_belong ctx ctx' :
  initialize_aborts_cleanly initialize →
  initialize_keeps_identifier initialize →
  initialize_leaves_clients initialize →
  initialize_writes_own_snapshots initialize →
  update_keeps_identifier tendermint_CheckValidityAndUpdateState →
  misbehaviour_keeps_identifier tendermint_CheckMisbehaviourAndUpdateState →
  keyed_by_identifier ctx →
  step ctx ctx' →
  snapshots_belong_to_clients ctx → snapshots_belong_to_clients ctx'.
Proof.
  intros Habort Hinit Hleave Hown Hupd Hmis Hkey Hstep Hbelong.
  destruct (step_cases _ _ _ _ _ Habort Hstep)
    as [Hsame|[(id & t & c & cs & ctx1 & Hs & Ht & Hi & ->)
       |[(id & h & cs & cs' & cons & Hs & Hf & Hv & ->)
        |(m & cs & cons & cs' & Hs & Hv & ->)]]].
  - unfold snapshots_belong_to_clients. rewrite Hsame. exact Hbelong.
  - intros id' height snap. simpl. intros Hsnap.
    destruct (Hleave _ _ _ _ _ _ Hi) as [Hst _].
    pose proof (Hinit _ _ _ _ _ _ Hi) as Hid. rewrite Hid, Hst.
    apply lookup_insert_is_Some'.
    destruct (Hown _ _ _ _ _ _ _ _ _ Hi Hsnap) as [Hold| ->]; [|left; reflexivity].
    right. exact (Hbelong _ _ _ Hold).
  - pose proof (Hupd _ _ _ _ _ Hv) as Hid. rewrite (Hkey _ _ Hs) in Hid.
    intros id' height snap. simpl. rewrite Hid. intros Hsnap.
    apply lookup_insert_is_Some'.
    destruct (decide (id = id')) as [Heq|Hne]; [left; exact Heq|].
    right. rewrite lookup_insert_ne in Hsnap by congruence.
    exact (Hbelong _ _ _ Hsnap).
  - pose proof (Hmis _ _ _ _ _ Hv) as Hid. rewrite (Hkey _ _ Hs) in Hid.
    intros id' height snap. simpl. rewrite Hid. intros Hsnap.
    apply lookup_insert_is_Some'. right. exact (Hbelong _ _ _ Hsnap).
Qed.

(** X11.  In every context the keeper's calls lead to from a new one, each
    client state is stored under the identifier it carries, and each stored
    consensus state is the snapshot of a client that has a client state:
    [UpdateClient] writes a consensus state only after it has found the
    client.  [initialize] and the verifier keep the identifier of the state,
    and [initialize] writes consensus states for the new identifier only. *)
Theorem reachable_store_well_formed ctx :
  initialize_aborts_cleanly initialize →
  initialize_keeps_identifier initialize →
  initialize_leaves_clients initialize →
  initialize_writes_own_snapshots initialize →
  update_keeps_identifier tendermint_CheckValidityAndUpdateState →
  misbehaviour_keeps_identifier tendermint_CheckMisbehaviourAndUpdateState →
  reachable ctx →
  keyed_by_identifier ctx ∧ snapshots_belong_to_clients ctx.
Proof.
  intros Habort Hinit Hleave Hown Hupd Hmis Hreach.
  assert (H : consistent ctx ∧ snapshots_belong_to_clients ctx).
  { induction Hreach as [chain|ctx ctx' _ IH Hstep].
    - split; [apply consistent_new|].
      intros id height snap. simpl. rewrite lookup_empty. discriminate.
    - destruct IH as [Hc Hb]. split.
      + exact (step_consistent _ _ _ _ _ Habort Hinit Hleave Hupd Hmis Hstep Hc).
      + exact (step_snapshots_belong _ _ Habort Hinit Hleave Hown Hupd Hmis
                 (proj1 Hc) Hstep Hb). }
  destruct H as [[Hkey _] Hb]. split; assumption.
Qed.

(** X12.  Only a Tendermint header can update a client.  [UpdateClient]
    first requires the header's type to equal the stored consensus type and
    then has a verifier for Tendermint alone, so for a header that claims
    any other type it fails, whatever the store holds and whatever the
    verifier would answer, and returns the context it was given. *)
Theorem only_tendermint_headers_update clientID header ctx :
  Header_ClientType header ≠ Tendermint →
  ∃ e,
    UpdateClient clientID header ctx = (ctx, Err e)
    ∧ (Cause e = ErrClientTypeNotFound ∨ Cause e = ErrInvalidConsensus
       ∨ Cause e = ErrClientNotFound ∨ Cause e = ErrClientFrozen
       ∨ Cause e = ErrInvalidClientType).
Proof.
  intros Hne. rewrite UpdateClient_cases.
  destruct (clientTypes (store ctx) !! clientID) as [t|];
    [|eexists; split; [reflexivity|simpl; auto]].
  destruct (decide (Header_ClientType header = t)) as [Heq|Hty].
  - rewrite (bool_decide_eq_false_2 _ (λ H, H Heq)).
    destruct t as [|tag]; [destruct (Hne Heq)|].
    repeat case_match; eexists; (split; [reflexivity|]); simpl; auto 6.
  - rewrite (bool_decide_eq_true_2 _ Hty).
    eexists; split; [reflexivity|simpl; auto].
Qed.

End Composition.

(** ** The scenario with a second client, run *)

Section ScenarioMoreRuns.

Import Scenario ScenarioMore.

Local Ltac run := vm_compute; reflexivity.

Local Abbreviation step :=
  (step (SpecVerifier.initialize 10) SpecVerifier.CheckValidityAndUpdateState
     SpecVerifier.CheckMisbehaviourAndUpdateState).

Lemma scenario_create_two :
  create "chainB" Tendermint snapshot0 ctx_updated = (ctx_two, Ok state_two).
Proof. run. Qed.

Lemma scenario_freeze_two : check evidence20 ctx_two = (ctx_two_frozen, Ok ()).
Proof. run. Qed.

Lemma scenario_update_two :
  update "chainB" header30 ctx_two_frozen = (ctx_two_later, Ok ()).
Proof. run. Qed.

Lemma scenario_steps : rtc step ctx_created ctx_two_later.
Proof.
  eapply rtc_l; [exact (step_update _ _ _ _ _ _ _ _ scenario_update)|].
  eapply rtc_l; [exact (step_create _ _ _ _ _ _ _ _ _ scenario_create_two)|].
  eapply rtc_l; [exact (step_misbehaviour _ _ _ _ _ _ _ scenario_freeze_two)|].
  apply rtc_once. exact (step_update _ _ _ _ _ _ _ _ scenario_update_two).
Qed.

Lemma scenario_steps_after_freeze : rtc step ctx_two_frozen ctx_two_later.
Proof. apply rtc_once. exact (step_update _ _ _ _ _ _ _ _ scenario_update_two). Qed.

Lemma scenario_reachable_created :
  reachable (SpecVerifier.initialize 10) SpecVerifier.CheckValidityAndUpdateState
    SpecVerifier.CheckMisbehaviourAndUpdateState ctx_created.
Proof.
  eapply reachable_step; [|exact (step_create _ _ _ _ _ _ _ _ _ scenario_create)].
  apply reachable_new.
Qed.

Lemma scenario_reachable_later :
  reachable (SpecVerifier.initialize 10) SpecVerifier.CheckValidityAndUpdateState
    SpecVerifier.CheckMisbehaviourAndUpdateState ctx_two_later.
Proof.
  pose proof scenario_reachable_created as Hstart.
  pose proof scenario_steps as Hsteps.
  induction Hsteps as [ctx|ctx ctx1 ctx2 Hstep _ IH]; [exact Hstart|].
  apply IH. eapply reachable_step; eassumption.
Qed.

Lemma scenario_consistent ctx :
  reachable (SpecVerifier.initialize 10) SpecVerifier.CheckValidityAndUpdateState
    SpecVerifier.CheckMisbehaviourAndUpdateState ctx →
  consistent ctx.
Proof.
  apply reachable_consistent.
  - exact (SpecVerifier_initialize_aborts_cleanly 10).
  - exact (SpecVerifier_initialize_keeps_identifier 10).
  - exact (SpecVerifier_initialize_leaves_clients 10).
  - exact SpecVerifier_update_keeps_identifier.
  - exact SpecVerifier_misbehaviour_keeps_identifier.
Qed.

Lemma scenario_consistent_two_frozen : consistent ctx_two_frozen.
Proof.
  apply scenario_consistent.
  eapply reachable_step; [|exact (step_misbehaviour _ _ _ _ _ _ _ scenario_freeze_two)].
  eapply reachable_step; [|exact (step_create _ _ _ _ _ _ _ _ _ scenario_create_two)].
  eapply reachable_step; [|exact (step_update _ _ _ _ _ _ _ _ scenario_update)].
  exact scenario_reachable_created.
Qed.

Lemma errors_name_the_client_witness :
  (∀ ctx' e,
     create "chainA" Tendermint snapshot0 ctx_created = (ctx', Err e) →
     ∃ cause, e = Wrap cause "cannot create client with ID chainA")
  ∧ (∀ ctx' e,
       update "chainA" header30 ctx_frozen = (ctx', Err e) →
       ∃ cause, e = Wrap cause "cannot update client with ID chainA")
  ∧ check no_fork20 ctx_updated
      = (ctx_updated, Err (ErrVerifier "evidence does not prove misbehaviour")).
Proof.
  destruct (errors_name_the_client (SpecVerifier.initialize 10)
              SpecVerifier.CheckValidityAndUpdateState
              SpecVerifier.CheckMisbehaviourAndUpdateState)
    as (Hcreate & Hupdate & _).
  split; [exact (Hcreate "chainA" Tendermint snapshot0 ctx_created)|].
  split; [exact (Hupdate "chainA" header30 ctx_frozen)|]. run.
Defined.

Lemma events_on_success_only_witness :
  update "chainA" header20 ctx_created = (ctx_updated, Ok ())
  ∧ ChainID ctx_updated = ChainID ctx_created
  ∧ ((Ok () = Ok ()
      ∧ events ctx_updated = events ctx_created ++ update_events "chainA"
      ∧ logger ctx_updated
        = logger ctx_created ++ ["client chainA updated to height 20"])
     ∨ ((∃ e, Ok () = Err e) ∧ ctx_updated = ctx_created)).
Proof.
  destruct (events_on_success_only SpecVerifier.CheckValidityAndUpdateState
              SpecVerifier.CheckMisbehaviourAndUpdateState) as (Hupdate & _).
  split; [exact scenario_update|].
  exact (Hupdate "chainA" header20 ctx_created ctx_updated (Ok ()) scenario_update).
Defined.

Lemma client_persists_with_its_type_witness :
  initialize_aborts_cleanly (SpecVerifier.initialize 10)
  ∧ initialize_leaves_clients (SpecVerifier.initialize 10)
  ∧ rtc step ctx_created ctx_two_later
  ∧ clientTypes (store ctx_created) !! "chainA" = Some Tendermint
  ∧ clientTypes (store ctx_two_later) !! "chainA" = Some Tendermint.
Proof.
  assert (Ht : clientTypes (store ctx_created) !! "chainA" = Some Tendermint) by run.
  split; [exact (SpecVerifier_initialize_aborts_cleanly 10)|].
  split; [exact (SpecVerifier_initialize_leaves_clients 10)|].
  split; [exact scenario_steps|]. split; [exact Ht|].
  exact (proj2 (client_persists_with_its_type (SpecVerifier.initialize 10)
                  SpecVerifier.CheckValidityAndUpdateState
                  SpecVerifier.CheckMisbehaviourAndUpdateState
                  ctx_created ctx_two_later "chainA"
                  (SpecVerifier_initialize_aborts_cleanly 10)
                  (SpecVerifier_initialize_leaves_clients 10)
                  scenario_steps) Tendermint Ht).
Defined.

Lemma frozen_is_final_witness :
  consistent ctx_two_frozen
  ∧ rtc step ctx_two_frozen ctx_two_later
  ∧ clientStates (store ctx_two_frozen) !! "chainA" = Some state_frozen
  ∧ IsFrozen state_frozen = true
  ∧ frozenOf ctx_two_later "chainA" = Some true
  ∧ ∃ e, update "chainA" header30 ctx_two_later = (ctx_two_later, Err e).
Proof.
  assert (Hs : clientStates (store ctx_two_frozen) !! "chainA" = Some state_frozen)
    by run.
  destruct (frozen_is_final (SpecVerifier.initialize 10)
              SpecVerifier.CheckValidityAndUpdateState
              SpecVerifier.CheckMisbehaviourAndUpdateState
              ctx_two_frozen ctx_two_later "chainA" state_frozen
              (SpecVerifier_initialize_aborts_cleanly 10)
              (SpecVerifier_initialize_keeps_identifier 10)
              (SpecVerifier_initialize_leaves_clients 10)
              SpecVerifier_update_stays_active
              SpecVerifier_update_keeps_identifier
              SpecVerifier_misbehaviour_freezes
              SpecVerifier_misbehaviour_keeps_identifier
              scenario_consistent_two_frozen scenario_steps_after_freeze
              Hs eq_refl) as [Hfrozen Hfails].
  split; [exact scenario_consistent_two_frozen|].
  split; [exact scenario_steps_after_freeze|].
  split; [exact Hs|]. split; [reflexivity|]. split; [exact Hfrozen|].
  exact (Hfails header30).
Defined.

Lemma latest_height_never_decreases_across_calls_witness :
  consistent ctx_created
  ∧ rtc step ctx_created ctx_two_later
  ∧ latestHeightOf ctx_created "chainA" = Some 10
  ∧ ∃ height', latestHeightOf ctx_two_later "chainA" = Some height' ∧ 10 ≤ height'.
Proof.
  split; [exact (scenario_consistent _ scenario_reachable_created)|].
  split; [exact scenario_steps|]. split; [run|].
  exact (latest_height_never_decreases_across_calls (SpecVerifier.initialize 10)
           SpecVerifier.CheckValidityAndUpdateState
           SpecVerifier.CheckMisbehaviourAndUpdateState
           ctx_created ctx_two_later "chainA" 10
           (SpecVerifier_initialize_aborts_cleanly 10)
           (SpecVerifier_initialize_keeps_identifier 10)
           (SpecVerifier_initialize_leaves_clients 10)
           SpecVerifier_update_stays_active
           SpecVerifier_update_keeps_identifier
           SpecVerifier_misbehaviour_freezes
           SpecVerifier_misbehaviour_keeps_identifier
           (scenario_consistent _ scenario_reachable_created)
           scenario_steps ltac:(run)).
Defined.

Lemma calls_reach_one_client_witness :
  keyed_by_identifier ctx_two_frozen
  ∧ update "chainB" header30 ctx_two_frozen = (ctx_two_later, Ok ())
  ∧ "chainA" ≠ "chainB"
  ∧ clientStates (store ctx_two_later) !! "chainA"
      = clientStates (store ctx_two_frozen) !! "chainA"
  ∧ clientTypes (store ctx_two_later) !! "chainA"
      = clientTypes (store ctx_two_frozen) !! "chainA"
  ∧ ∀ height,
      consensusStates (store ctx_two_later) !! ("chainA", height)
      = consensusStates (store ctx_two_frozen) !! ("chainA", height).
Proof.
  destruct (calls_reach_one_client (SpecVerifier.initialize 10)
              SpecVerifier.CheckValidityAndUpdateState
              SpecVerifier.CheckMisbehaviourAndUpdateState
              (SpecVerifier_initialize_keeps_identifier 10)
              (SpecVerifier_initialize_leaves_clients 10)
              SpecVerifier_update_keeps_identifier
              SpecVerifier_misbehaviour_keeps_identifier) as (Hupdate & _ & _).
  assert (Hne : "chainA" ≠ "chainB") by discriminate.
  split; [exact (proj1 scenario_consistent_two_frozen)|].
  split; [exact scenario_update_two|]. split; [exact Hne|].
  exact (Hupdate "chainB" header30 ctx_two_frozen ctx_two_later (Ok ()) "chainA"
           (proj1 scenario_consistent_two_frozen) scenario_update_two Hne).
Defined.

Lemma negative_evidence_height_witness :
  - 2 ^ 63 ≤ Misbehaviour_GetHeight evidence_negative < 0
  ∧ clientStates (store ctx_updated) !! "chainA" = Some state_updated
  ∧ uint64 (-1) = -1 + 2 ^ 64
  ∧ check evidence_negative ctx_updated
    = (ctx_updated, Err (Wrap ErrConsensusStateNotFound "chainA")).
Proof.
  assert (Hrange : - 2 ^ 63 ≤ Misbehaviour_GetHeight evidence_negative < 0)
    by (change (- 2 ^ 63 ≤ -1 < 0); lia).
  assert (Hs : clientStates (store ctx_updated) !! "chainA" = Some state_updated)
    by run.
  split; [exact Hrange|]. split; [exact Hs|].
  apply (negative_evidence_height SpecVerifier.CheckMisbehaviourAndUpdateState
           evidence_negative ctx_updated state_updated Hrange Hs).
  intros height snap.
  change (consensusStates (store ctx_updated))
    with (<[("chainA", 20) := mkConsensusState "root20" "validators"]>
            (∅ : gmap (string * Z) ConsensusState)).
  intros H. apply lookup_insert_Some in H as [[Heq _]|[_ H]].
  - assert (height = 20) as -> by congruence. lia.
  - rewrite lookup_empty in H. discriminate.
Defined.

Lemma freeze_then_update_witness :
  keyed_by_identifier ctx_updated
  ∧ check evidence20 ctx_updated = (ctx_frozen, Ok ())
  ∧ frozenOf ctx_frozen "chainA" = Some true
  ∧ ∃ e,
      update "chainA" header30 ctx_frozen = (ctx_frozen, Err e)
      ∧ (Cause e = ErrClientFrozen ∨ Cause e = ErrInvalidConsensus
         ∨ Cause e = ErrClientTypeNotFound).
Proof.
  destruct (freeze_then_update SpecVerifier.CheckValidityAndUpdateState
              SpecVerifier.CheckMisbehaviourAndUpdateState
              evidence20 ctx_updated ctx_frozen
              SpecVerifier_misbehaviour_freezes
              SpecVerifier_misbehaviour_keeps_identifier
              scenario_keyed scenario_freeze) as [Hfrozen Hfails].
  split; [exact scenario_keyed|]. split; [exact scenario_freeze|].
  split; [exact Hfrozen|]. exact (Hfails header30).
Defined.

Lemma create_then_update_witness :
  initialize_keeps_identifier (SpecVerifier.initialize 10)
  ∧ create "chainA" Tendermint snapshot0 hub = (ctx_created, Ok state_created)
  ∧ update "chainA" header20 ctx_created = (ctx_updated, Ok ())
  ∧ update "chainA" foreign30 ctx_created
      = (ctx_created,
         Err (Wrap ErrInvalidConsensus "cannot update client with ID chainA")).
Proof.
  split; [exact (SpecVerifier_initialize_keeps_identifier 10)|].
  split; [exact scenario_create|]. split.
  - exact (eq_trans
             (create_then_update (SpecVerifier.initialize 10)
                SpecVerifier.CheckValidityAndUpdateState
                "chainA" Tendermint snapshot0 hub ctx_created state_created header20
                (SpecVerifier_initialize_keeps_identifier 10) scenario_create)
             ltac:(run)).
  - exact (eq_trans
             (create_then_update (SpecVerifier.initialize 10)
                SpecVerifier.CheckValidityAndUpdateState
                "chainA" Tendermint snapshot0 hub ctx_created state_created foreign30
                (SpecVerifier_initialize_keeps_identifier 10) scenario_create)
             ltac:(run)).
Defined.

Lemma update_then_check_misbehaviour_witness :
  keyed_by_identifier ctx_created
  ∧ update "chainA" header20 ctx_created = (ctx_updated, Ok ())
  ∧ Misbehaviour_GetClientID evidence20 = "chainA"
  ∧ uint64 (Misbehaviour_GetHeight evidence20) = Header_GetHeight header20
  ∧ ∃ clientState clientState' consensusState,
      clientStates (store ctx_created) !! "chainA" = Some clientState
      ∧ SpecVerifier.CheckValidityAndUpdateState clientState header20
          (ChainID ctx_created) = inl (clientState', consensusState)
      ∧ check evidence20 ctx_updated =
          match SpecVerifier.CheckMisbehaviourAndUpdateState clientState'
                  consensusState evidence20 (Header_GetHeight header20) with
          | inl frozenState => (frozen_by ctx_updated evidence20 frozenState, Ok ())
          | inr e => (ctx_updated, Err e)
          end.
Proof.
  assert (Hkey : keyed_by_identifier ctx_created)
    by exact (proj1 (scenario_consistent _ scenario_reachable_created)).
  split; [exact Hkey|]. split; [exact scenario_update|].
  split; [reflexivity|]. split; [reflexivity|].
  exact (update_then_check_misbehaviour
           SpecVerifier.CheckValidityAndUpdateState
           SpecVerifier.CheckMisbehaviourAndUpdateState
           "chainA" header20 ctx_created ctx_updated evidence20
           SpecVerifier_update_keeps_identifier Hkey scenario_update
           eq_refl eq_refl).
Defined.

Lemma reachable_store_well_formed_witness :
  reachable (SpecVerifier.initialize 10) SpecVerifier.CheckValidityAndUpdateState
    SpecVerifier.CheckMisbehaviourAndUpdateState ctx_two_later
  ∧ keyed_by_identifier ctx_two_later
  ∧ snapshots_belong_to_clients ctx_two_later.
Proof.
  split; [exact scenario_reachable_later|].
  exact (reachable_store_well_formed (SpecVerifier.initialize 10)
           SpecVerifier.CheckValidityAndUpdateState
           SpecVerifier.CheckMisbehaviourAndUpdateState ctx_two_later
           (SpecVerifier_initialize_aborts_cleanly 10)
           (SpecVerifier_initialize_keeps_identifier 10)
           (SpecVerifier_initialize_leaves_clients 10)
           (SpecVerifier_initialize_writes_own_snapshots 10)
           SpecVerifier_update_keeps_identifier
           SpecVerifier_misbehaviour_keeps_identifier
           scenario_reachable_later).
Defined.

Lemma only_tendermint_headers_update_witness :
  Header_ClientType foreign30 ≠ Tendermint
  ∧ ∃ e,
      update "chainA" foreign30 ctx_retagged = (ctx_retagged, Err e)
      ∧ (Cause e = ErrClientTypeNotFound ∨ Cause e = ErrInvalidConsensus
         ∨ Cause e = ErrClientNotFound ∨ Cause e = ErrClientFrozen
         ∨ Cause e = ErrInvalidClientType).
Proof.
  assert (Hne : Header_ClientType foreign30 ≠ Tendermint) by discriminate.
  split; [exact Hne|].
  exact (only_tendermint_headers_update SpecVerifier.CheckValidityAndUpdateState
           "chainA" foreign30 ctx_retagged Hne).
Defined.

End ScenarioMoreRuns.
